(** * udl worker: the authenticated upload/download gateway

    A shallow embedding of the two request handlers of the repository,

    - [Worker]: the flat handler of [worker/src/index.ts]
      ([/start-upload], [/upload-part], [/complete-upload], [/download],
      [/stats]), and
    - [HonoApp]: the resource-nested Hono application
      ([/uploads/...], [/objects], [/objects/:key], ...),

    over a common model of the platform values they manipulate (requests,
    responses, JSON values, JavaScript numbers) and of the R2 bucket they
    call.  A handler is a finite interaction tree ([prog]): its nodes are the
    calls made on the bucket binding, its leaves the value returned or the
    exception thrown.  Running a tree against a backing store yields the
    response together with the sequence of calls the store received. *)

From Stdlib Require Import Bool Ascii String List NArith ZArith Lia Eqdep.
Import ListNotations.
Open Scope string_scope.
Open Scope list_scope.

Set Implicit Arguments.
Set Warnings "-register-all".

(* ================================================================= *)
(** ** JavaScript numbers *)

(** A JavaScript number is an IEEE-754 double.  Every finite double is a
    dyadic rational; [Finite neg m k] stands for [(-1)^neg * m / 2^k]
    (so [Finite true 0 0] is [-0] and [Finite false 3 1] is [1.5]). *)
Inductive number : Type :=
| NaN
| Infinity (neg : bool)
| Finite (neg : bool) (m : N) (k : N).

Definition isNaN (n : number) : bool :=
  match n with NaN => true | _ => false end.

(** [Number.isInteger]: used by no handler, only to state what the handlers
    do not check. *)
Definition isInteger (n : number) : bool :=
  match n with
  | Finite _ m k => N.eqb (N.modulo m (2 ^ k)) 0
  | _ => false
  end.

Definition number_of_N (n : N) : number := Finite false n 0.
Definition number_of_Z (z : Z) : number := Finite (Z.ltb z 0) (Z.abs_N z) 0.

(** Rounding of a non-negative mathematical integer to the nearest double
    (ties to even); magnitudes from [2^1024] on become infinite. *)
Definition round_to_double (neg : bool) (m : N) : number :=
  if N.ltb m (2 ^ 53) then Finite neg m 0
  else
    let e := (N.log2 m - 52)%N in
    let q := N.div m (2 ^ e) in
    let r := N.modulo m (2 ^ e) in
    let up := orb (N.ltb (2 ^ e) (2 * r))
                  (andb (N.eqb (2 * r) (2 ^ e)) (N.odd q)) in
    let v := ((if up then q + 1 else q) * 2 ^ e)%N in
    if N.leb (2 ^ 1024) v then Infinity neg else Finite neg v 0.

(* ----------------------------------------------------------------- *)
(** *** [parseInt(s, 10)] *)

(** A string is given by its UTF-8 encoding, one [ascii] per byte.  The
    characters [parseInt] skips in front of the number are the white space
    and line terminators of ECMAScript: TAB, LF, VT, FF, CR, SPACE, NO-BREAK
    SPACE (U+00A0), U+1680, U+2000 to U+200A, U+2028, U+2029, U+202F, U+205F,
    U+3000 and U+FEFF. *)
Definition bytes (l : list N) : string :=
  fold_right (fun n s => String (ascii_of_N n) s) EmptyString l.

Definition white_space : list string :=
  map bytes
    [[9]; [10]; [11]; [12]; [13]; [32]; [194; 160]; [225; 154; 128];
     [226; 128; 128]; [226; 128; 129]; [226; 128; 130]; [226; 128; 131];
     [226; 128; 132]; [226; 128; 133]; [226; 128; 134]; [226; 128; 135];
     [226; 128; 136]; [226; 128; 137]; [226; 128; 138];
     [226; 128; 168]; [226; 128; 169]; [226; 128; 175]; [226; 129; 159];
     [227; 128; 128]; [239; 187; 191]]%N.

(** [strip_prefix p s] is what follows [p] in [s], when [s] starts with
    [p]. *)
Fixpoint strip_prefix (p s : string) : option string :=
  match p with
  | EmptyString => Some s
  | String a p' =>
      match s with
      | String b s' => if Ascii.eqb a b then strip_prefix p' s' else None
      | EmptyString => None
      end
  end.

Fixpoint strip_any (ps : list string) (s : string) : option string :=
  match ps with
  | [] => None
  | p :: ps' =>
      match strip_prefix p s with
      | Some s' => Some s'
      | None => strip_any ps' s
      end
  end.

(** Removes leading white space, one character per unit of fuel. *)
Fixpoint trim_start_fuel (fuel : nat) (s : string) : string :=
  match fuel with
  | O => s
  | S fuel' =>
      match strip_any white_space s with
      | Some s' => trim_start_fuel fuel' s'
      | None => s
      end
  end.

Definition trim_start (s : string) : string :=
  trim_start_fuel (String.length s) s.

Definition digit_value (c : ascii) : option N :=
  let n := N_of_ascii c in
  if andb (N.leb 48 n) (N.leb n 57) then Some (n - 48)%N else None.

(** The longest prefix of decimal digits, as a mathematical integer;
    [None] when the prefix is empty. *)
Fixpoint leading_digits (s : string) (acc : option N) : option N :=
  match s with
  | String c s' =>
      match digit_value c with
      | Some d =>
          leading_digits s'
            (Some (match acc with Some a => 10 * a + d | None => d end)%N)
      | None => acc
      end
  | EmptyString => acc
  end.

Definition parseInt (s : string) : number :=
  let s1 := trim_start s in
  let '(neg, s2) :=
    match s1 with
    | String "-" t => (true, t)
    | String "+" t => (false, t)
    | _ => (false, s1)
    end in
  match leading_digits s2 None with
  | None => NaN
  | Some m => round_to_double neg m
  end.

(* ================================================================= *)
(** ** JSON values *)

(** The value produced by [JSON.parse].  An object is the list of its own
    properties (names distinct); arrays are dense. *)
Inductive json : Type :=
| JNull
| JBool (b : bool)
| JNum (n : number)
| JStr (s : string)
| JArr (items : list json)
| JObj (props : list (string * json)).

(** What a property read [v.name] yields when it does not throw. *)
Inductive jsval : Type :=
| Undefined
| Value (v : json).

Fixpoint assoc {A : Type} (name : string) (l : list (string * A)) : option A :=
  match l with
  | [] => None
  | (k, v) :: l' => if String.eqb k name then Some v else assoc name l'
  end.

Inductive js_type : Type :=
| TUndefined | TObject | TBoolean | TNumber | TString.

Definition typeof (x : jsval) : js_type :=
  match x with
  | Undefined => TUndefined
  | Value JNull => TObject
  | Value (JBool _) => TBoolean
  | Value (JNum _) => TNumber
  | Value (JStr _) => TString
  | Value (JArr _) => TObject
  | Value (JObj _) => TObject
  end.

Definition js_type_eqb (a b : js_type) : bool :=
  match a, b with
  | TUndefined, TUndefined | TObject, TObject | TBoolean, TBoolean
  | TNumber, TNumber | TString, TString => true
  | _, _ => false
  end.

(* ================================================================= *)
(** ** Requests and responses *)

(** ASCII lower-casing: header names are case-insensitive and a [Headers]
    object keeps them lower-cased. *)
Definition lower_ascii (c : ascii) : ascii :=
  let n := N_of_ascii c in
  if andb (N.leb 65 n) (N.leb n 90) then ascii_of_N (n + 32) else c.

Fixpoint lower (s : string) : string :=
  match s with
  | String c s' => String (lower_ascii c) (lower s')
  | EmptyString => EmptyString
  end.

Definition Headers : Type := list (string * string).

Definition headers_get (h : Headers) (name : string) : option string :=
  assoc (lower name) (map (fun kv => (lower (fst kv), snd kv)) h).

(** An incoming request, as the platform hands it over:
    - [req_pathname] and [req_searchParams] are [new URL(req.url).pathname]
      and the decoded query pairs in their order;
    - [req_body] is [None] for a request without a body;
    - [req_json] is what [await req.json()] resolves to, [None] when it
      rejects (no body, or a body that is not JSON). *)
Record Request : Type := {
  req_method : string;
  req_pathname : string;
  req_searchParams : list (string * string);
  req_headers : Headers;
  req_body : option string;
  req_json : option json
}.

(** [URLSearchParams.get]: the first value for the name. *)
Definition searchParams_get (r : Request) (name : string) : option string :=
  assoc name (req_searchParams r).

Inductive Body : Type :=
| BodyNull
| BodyText (s : string)
| BodyJson (v : json)
| BodyStream (bytes : string).

Record Response : Type := {
  status : N;
  resp_headers : Headers;
  resp_body : Body
}.

(** [Response.json(v, { status })] *)
Definition Response_json (v : json) (st : N) : Response :=
  {| status := st;
     resp_headers := [("content-type", "application/json")];
     resp_body := BodyJson v |}.

(** [new Response(text, { status })] *)
Definition Response_text (s : string) (st : N) : Response :=
  {| status := st;
     resp_headers := [("content-type", "text/plain;charset=UTF-8")];
     resp_body := BodyText s |}.

(** The object literal [{ error: msg }]. *)
Definition error_object (msg : string) : json := JObj [("error", JStr msg)].

(* ================================================================= *)
(** ** The R2 bucket binding *)

Record R2MultipartUpload : Type := {
  mpu_key : string;
  mpu_uploadId : string
}.

Record R2UploadedPart : Type := {
  part_partNumber : number;
  part_etag : string
}.

Record R2Object : Type := {
  obj_key : string;
  obj_size : N;
  obj_etag : string;
  obj_httpMetadata : Headers
}.

Record R2ObjectBody : Type := {
  ob_object : R2Object;
  ob_body : string
}.

(** [object.writeHttpMetadata(h)] on fresh headers [h]. *)
Definition writeHttpMetadata (o : R2Object) : Headers := obj_httpMetadata o.

(** The operations the handlers invoke on the bucket (and on the multipart
    handle it hands out), indexed by the type of what they resolve to. *)
Inductive store_op : Type -> Type :=
| CreateMultipartUpload (key : string) : store_op R2MultipartUpload
| ResumeMultipartUpload (key uploadId : string) : store_op R2MultipartUpload
| UploadPart (mpu : R2MultipartUpload) (partNumber : number) (body : string)
    : store_op R2UploadedPart
| Complete (mpu : R2MultipartUpload) (parts : list json) : store_op R2Object
| Get (key : string) : store_op (option R2ObjectBody)
| Head (key : string) : store_op (option R2Object)
| ListObjects (prefix : option string) (limit : N) : store_op (list R2Object)
| Delete (key : string) : store_op unit.

Inductive R2Bucket : Type := R2BucketBinding.

(** The bindings of the worker.  The declared type makes both mandatory; at
    run time either may be missing, which the Hono application tests for. *)
Record Env : Type := {
  BUCKET : option R2Bucket;
  AUTH_KEY : option string
}.

(* ================================================================= *)
(** ** Handler programs *)

(** What a [throw] can carry in the two sources. *)
Inductive exn : Type :=
| ThrownResponse (r : Response)                 (* [throw new Response(..)] *)
| HTTPException (st : N) (message : string)     (* hono/http-exception *)
| Error (name : string) (message : string).     (* anything else *)

(** How the store settles a call: the promise resolves to a value or is
    rejected with an error. *)
Inductive reply (R : Type) : Type :=
| Returns (r : R)
| Rejects (name : string) (message : string).

Arguments Returns {R} r.
Arguments Rejects {R} name message.

Inductive prog (A : Type) : Type :=
| Ret (a : A)
| Throw (e : exn)
| Call (R : Type) (op : store_op R) (k : reply R -> prog A).

Arguments Ret {A} a.
Arguments Throw {A} e.
Arguments Call {A R} op k.

Fixpoint bind {A B : Type} (p : prog A) (f : A -> prog B) : prog B :=
  match p with
  | Ret a => f a
  | Throw e => Throw e
  | Call op k => Call op (fun r => bind (k r) f)
  end.

(** [try { p } catch (e) { h e }] *)
Fixpoint try_catch {A : Type} (p : prog A) (h : exn -> prog A) : prog A :=
  match p with
  | Ret a => Ret a
  | Throw e => h e
  | Call op k => Call op (fun r => try_catch (k r) h)
  end.

Declare Scope prog_scope.
Delimit Scope prog_scope with prog.
Notation "x <- p ;; q" := (bind p (fun x => q))
  (at level 61, p at next level, right associativity) : prog_scope.
Notation "p ;; q" := (bind p (fun _ => q))
  (at level 61, right associativity) : prog_scope.
Open Scope prog_scope.

(** [await]: a rejection is thrown where the call was made. *)
Definition await {R : Type} (ans : reply R) : prog R :=
  match ans with
  | Returns r => Ret r
  | Rejects name message => Throw (Error name message)
  end.

(** A method call on [env.BUCKET]: a [TypeError] when the binding is
    missing, otherwise a call answered by the backing store. *)
Definition on_bucket {R : Type} (env : Env) (op : store_op R) : prog R :=
  match BUCKET env with
  | Some _ => Call op await
  | None => Throw (Error "TypeError" "Cannot read properties of undefined")
  end.

(** A method call on a multipart handle obtained from the bucket. *)
Definition on_mpu {R : Type} (op : store_op R) : prog R := Call op await.

(** [if (c) throw e] *)
Definition throw_if (c : bool) (e : exn) : prog unit :=
  if c then Throw e else Ret tt.

(** What a handler run leaves behind: the response sent and the values
    passed to [console.error]. *)
Record Served : Type := {
  response : Response;
  console : list exn
}.

Definition quiet (r : Response) : Served :=
  {| response := r; console := [] |}.

(* ----------------------------------------------------------------- *)
(** *** Running a program against a backing store *)

Inductive completion (A : Type) : Type :=
| Returned (a : A)
| Thrown (e : exn).

Arguments Returned {A} a.
Arguments Thrown {A} e.

(** One exchange with the store: the call and what it answered. *)
Inductive exchange : Type :=
| Exchange (R : Type) (op : store_op R) (ans : reply R).

Arguments Exchange {R} op ans.

Inductive call : Type :=
| CallOf (R : Type) (op : store_op R).

Arguments CallOf {R} op.

Inductive answer : Type :=
| AnswerOf (R : Type) (ans : reply R).

Arguments AnswerOf {R} ans.

Definition call_of (x : exchange) : call :=
  match x with Exchange op _ => CallOf op end.

Definition answer_of (x : exchange) : answer :=
  match x with Exchange _ ans => AnswerOf ans end.

Section Run.

(** A backing store: a state and the way it answers each operation. *)
Variable S : Type.
Variable respond : forall R : Type, S -> store_op R -> reply R * S.

Fixpoint run {A : Type} (p : prog A) (s : S)
  : completion A * list exchange * S :=
  match p with
  | Ret a => (Returned a, [], s)
  | Throw e => (Thrown e, [], s)
  | Call op k =>
      let '(ans, s') := respond s op in
      let '(c, t, s'') := run (k ans) s' in
      (c, Exchange op ans :: t, s'')
  end.

Definition outcome {A : Type} (p : prog A) (s : S) : completion A :=
  fst (fst (run p s)).

Definition transcript {A : Type} (p : prog A) (s : S) : list exchange :=
  snd (fst (run p s)).

(** The calls the store received, in order. *)
Definition calls {A : Type} (p : prog A) (s : S) : list call :=
  map call_of (transcript p s).

(** The answers the store gave, in order. *)
Definition answers {A : Type} (p : prog A) (s : S) : list answer :=
  map answer_of (transcript p s).

(** The state the store is left in. *)
Definition final_state {A : Type} (p : prog A) (s : S) : S :=
  snd (run p s).

(** The response sent, when the program returns. *)
Definition answered (p : prog Served) (s : S) : option Response :=
  match outcome p s with
  | Returned sv => Some (response sv)
  | Thrown _ => None
  end.

End Run.

(* ----------------------------------------------------------------- *)
(** *** Expressions shared by the two sources *)

(** The property read [v.name] on a parsed JSON value, for a [name] that no
    built-in prototype defines (the handlers read [partNumber] and [etag]
    only): reading a property of [null] throws a [TypeError], primitives and
    arrays have no such property. *)
Definition get_prop (v : json) (name : string) : prog jsval :=
  match v with
  | JNull => Throw (Error "TypeError" "Cannot read properties of null")
  | JObj props =>
      match assoc name props with
      | Some x => Ret (Value x)
      | None => Ret Undefined
      end
  | _ => Ret Undefined
  end.

(** [items.every(f)], for a callback that may throw: stops at the first
    element the callback rejects. *)
Fixpoint every {A : Type} (f : A -> prog bool) (items : list A) : prog bool :=
  match items with
  | [] => Ret true
  | x :: rest => b <- f x ;; if b then every f rest else Ret false
  end.

(** The callback both sources pass to [every]:
    [(part) => typeof part.partNumber === 'number'
                && typeof part.etag === 'string'] *)
Definition part_is_valid (part : json) : prog bool :=
  pn <- get_prop part "partNumber" ;;
  if js_type_eqb (typeof pn) TNumber
  then et <- get_prop part "etag" ;; Ret (js_type_eqb (typeof et) TString)
  else Ret false.

(** [await request.json()] *)
Definition request_json (r : Request) : prog json :=
  match req_json r with
  | Some v => Ret v
  | None => Throw (Error "SyntaxError" "Unexpected end of JSON input")
  end.

(** [s.split(sep)] for a one-character separator. *)
Fixpoint split (sep : ascii) (s : string) : list string :=
  match s with
  | EmptyString => [EmptyString]
  | String c s' =>
      if Ascii.eqb c sep then EmptyString :: split sep s'
      else match split sep s' with
           | h :: t => String c h :: t
           | [] => [String c EmptyString]
           end
  end.

(* ----------------------------------------------------------------- *)
(** *** Percent decoding *)

Definition hex_value (c : ascii) : option N :=
  let n := N_of_ascii c in
  if andb (N.leb 48 n) (N.leb n 57) then Some (n - 48)%N
  else if andb (N.leb 65 n) (N.leb n 70) then Some (n - 55)%N
  else if andb (N.leb 97 n) (N.leb n 102) then Some (n - 87)%N
  else None.

(** The escape [%XX] at the head of a string: its octet, its text and what
    follows it. *)
Definition escape (s : string) : option (N * string * string) :=
  match s with
  | String "%" (String h (String l rest)) =>
      match hex_value h, hex_value l with
      | Some a, Some b =>
          Some ((16 * a + b)%N, String "%" (String h (String l EmptyString)),
                rest)
      | _, _ => None
      end
  | _ => None
  end.

(** [n] escapes in a row. *)
Fixpoint escapes (n : nat) (s : string) : option (list N * string) :=
  match n with
  | O => Some ([], s)
  | S n' =>
      match escape s with
      | Some (b, _, s1) =>
          match escapes n' s1 with
          | Some (bs, s2) => Some (b :: bs, s2)
          | None => None
          end
      | None => None
      end
  end.

(** The number of leading 1 bits of an octet (5 stands for 5 and more). *)
Definition leading_ones (b : N) : nat :=
  if N.ltb b 128 then 0
  else if N.ltb b 192 then 1
  else if N.ltb b 224 then 2
  else if N.ltb b 240 then 3
  else if N.ltb b 248 then 4
  else 5.

Definition between (lo hi b : N) : bool := andb (N.leb lo b) (N.leb b hi).

(** The octets are the UTF-8 encoding of one code point beyond U+007F
    (shortest form, no surrogate, at most U+10FFFF). *)
Definition valid_utf8 (octets : list N) : bool :=
  match octets with
  | [a; b] => andb (between 194 223 a) (between 128 191 b)
  | [a; b; c] =>
      andb (between 128 191 c)
        (orb (andb (N.eqb a 224) (between 160 191 b))
           (orb (andb (orb (between 225 236 a) (between 238 239 a))
                   (between 128 191 b))
              (andb (N.eqb a 237) (between 128 159 b))))
  | [a; b; c; d] =>
      andb (andb (between 128 191 c) (between 128 191 d))
        (orb (andb (N.eqb a 240) (between 144 191 b))
           (orb (andb (between 241 243 a) (between 128 191 b))
              (andb (N.eqb a 244) (between 128 143 b))))
  | _ => false
  end.

(** ECMAScript's [Decode]: [None] stands for a [URIError].  An escape of an
    ASCII character in [preserve] is kept as it is written; an escape with
    the high bit set must start a run of escapes that spell one UTF-8
    encoded code point. *)
Fixpoint decode_fuel (preserve : list ascii) (fuel : nat) (s : string)
  : option string :=
  match fuel with
  | O => match s with EmptyString => Some EmptyString | _ => None end
  | S fuel' =>
      match s with
      | EmptyString => Some EmptyString
      | String c rest =>
          if Ascii.eqb c "%" then
            match escape s with
            | None => None
            | Some (b, text, s1) =>
                match leading_ones b with
                | O =>
                    option_map
                      (append
                         (if existsb (Ascii.eqb (ascii_of_N b)) preserve
                          then text
                          else String (ascii_of_N b) EmptyString))
                      (decode_fuel preserve fuel' s1)
                | S O => None
                | S (S n) =>
                    if Nat.ltb 2 n then None
                    else
                      match escapes (S n) s1 with
                      | None => None
                      | Some (bs, s2) =>
                          if valid_utf8 (b :: bs)
                          then option_map (append (bytes (b :: bs)))
                                 (decode_fuel preserve fuel' s2)
                          else None
                      end
                end
            end
          else option_map (String c) (decode_fuel preserve fuel' rest)
      end
  end.

Definition decodeURI (s : string) : option string :=
  decode_fuel (list_ascii_of_string ";/?:@&=+$,#") (String.length s) s.

Definition decodeURIComponent (s : string) : option string :=
  decode_fuel [] (String.length s) s.

Fixpoint contains_percent (s : string) : bool :=
  match s with
  | EmptyString => false
  | String c rest => orb (Ascii.eqb c "%") (contains_percent rest)
  end.

(* ================================================================= *)
(** ** [worker/src/index.ts]: the flat worker *)

Module Worker.

Definition checkMethod (req : Request) (method : string) : prog unit :=
  throw_if (negb (String.eqb (req_method req) method))
    (ThrownResponse (Response_text "Method not allowed" 405)).

Definition getUrlParam (req : Request) (name : string) : prog string :=
  match searchParams_get req name with
  | Some value => Ret value
  | None =>
      Throw (ThrownResponse (Response_text ("Invalid or missing " ++ name) 400))
  end.

Definition getUrlParamNumber (req : Request) (name : string) : prog number :=
  value <- getUrlParam req name ;;
  let n := parseInt value in
  if isNaN n
  then Throw (ThrownResponse (Response_text ("Invalid " ++ name) 400))
  else Ret n.

(** [typeof auth !== 'string' || auth !== env.AUTH_KEY] *)
Definition auth_rejected (auth : option string) (env : Env) : bool :=
  match auth, AUTH_KEY env with
  | Some a, Some k => negb (String.eqb a k)
  | _, _ => true
  end.

Definition start_upload (request : Request) (env : Env) : prog Response :=
  checkMethod request "POST" ;;
  key <- getUrlParam request "key" ;;
  mpu <- on_bucket env (CreateMultipartUpload key) ;;
  Ret (Response_json
         (JObj [("key", JStr (mpu_key mpu));
                ("uploadId", JStr (mpu_uploadId mpu))]) 200).

Definition upload_part (request : Request) (env : Env) : prog Response :=
  checkMethod request "POST" ;;
  match req_body request with
  | None => Throw (ThrownResponse (Response_json (error_object "No body") 400))
  | Some body =>
      key <- getUrlParam request "key" ;;
      uploadId <- getUrlParam request "uploadId" ;;
      partNumber <- getUrlParamNumber request "partNumber" ;;
      mpu <- on_bucket env (ResumeMultipartUpload key uploadId) ;;
      part <- on_mpu (UploadPart mpu partNumber body) ;;
      Ret (Response_json
             (JObj [("partNumber", JNum (part_partNumber part));
                    ("etag", JStr (part_etag part))]) 200)
  end.

Definition complete_upload (request : Request) (env : Env) : prog Response :=
  checkMethod request "POST" ;;
  key <- getUrlParam request "key" ;;
  uploadId <- getUrlParam request "uploadId" ;;
  parts <- request_json request ;;
  match parts with
  | JArr items =>
      ok <- every part_is_valid items ;;
      if negb ok
      then Ret (Response_json (error_object "Invalid parts") 400)
      else if Nat.eqb (length items) 0
      then Ret (Response_json (error_object "No parts") 400)
      else
        mpu <- on_bucket env (ResumeMultipartUpload key uploadId) ;;
        on_mpu (Complete mpu items) ;;
        Ret (Response_json (JObj [("key", JStr key)]) 200)
  | _ => Ret (Response_json (error_object "Invalid parts") 400)
  end.

Definition download (request : Request) (env : Env) : prog Response :=
  checkMethod request "GET" ;;
  key <- getUrlParam request "key" ;;
  object <- on_bucket env (Get key) ;;
  match object with
  | None => Ret (Response_json (error_object "Not found") 404)
  | Some o =>
      Ret {| status := 200;
             resp_headers := writeHttpMetadata (ob_object o);
             resp_body := BodyStream (ob_body o) |}
  end.

Definition stats (request : Request) (env : Env) : prog Response :=
  checkMethod request "GET" ;;
  key <- getUrlParam request "key" ;;
  object <- on_bucket env (Head key) ;;
  match object with
  | None => Ret (Response_json (error_object "Not found") 404)
  | Some o =>
      Ret (Response_json
             (JObj [("size", JNum (number_of_N (obj_size o)));
                    ("etag", JStr (obj_etag o))]) 200)
  end.

Definition handleRequest (request : Request) (env : Env) : prog Response :=
  let auth := headers_get (req_headers request) "Authorization" in
  throw_if (auth_rejected auth env)
    (ThrownResponse (Response_json (error_object "Unauthorized") 401)) ;;
  match nth_error (split "/" (req_pathname request)) 1 with
  | None =>
      Throw (ThrownResponse (Response_json (error_object "Not found") 404))
  | Some firstPath =>
      if String.eqb firstPath "start-upload" then start_upload request env
      else if String.eqb firstPath "upload-part" then upload_part request env
      else if String.eqb firstPath "complete-upload"
           then complete_upload request env
      else if String.eqb firstPath "download" then download request env
      else if String.eqb firstPath "stats" then stats request env
      else
        Throw (ThrownResponse (Response_json (error_object "Not found") 404))
  end.

(** The exported [fetch]: a thrown [Response] is the answer; anything else
    is logged and answered with 500. *)
Definition fetch (request : Request) (env : Env) : prog Served :=
  try_catch
    (r <- handleRequest request env ;; Ret (quiet r))
    (fun e =>
       match e with
       | ThrownResponse r => Ret (quiet r)
       | _ =>
           Ret {| response :=
                    Response_json (error_object "Internal server error") 500;
                  console := [e] |}
       end).

End Worker.

(* ================================================================= *)
(** ** The Hono application: resource-nested routes *)

Module HonoApp.

(** Hono's [Context], as far as the handlers use it: the raw request, the
    bindings and the path segments bound to the parameters of the matched
    route. *)
Record Context : Type := {
  ctx_req : Request;
  ctx_env : Env;
  ctx_params : list (string * string)
}.

(** [c.req.query(name)] *)
Definition req_query (c : Context) (name : string) : option string :=
  searchParams_get (ctx_req c) name.

(** The longest run of escapes [%XX] at the head of a string, and what
    follows it. *)
Fixpoint escape_run (s : string) : string * string :=
  match s with
  | String "%" (String h (String l rest)) =>
      match hex_value h, hex_value l with
      | Some _, Some _ =>
          let '(run, after) := escape_run rest in
          (String "%" (String h (String l run)), after)
      | _, _ => (EmptyString, s)
      end
  | _ => (EmptyString, s)
  end.

(** [str.replace(/(?:%[0-9A-Fa-f]{2})+/g, f)], where [f] decodes a run and
    keeps it when the decoder throws. *)
Fixpoint replace_runs (decoder : string -> option string) (fuel : nat)
         (s : string) : string :=
  match fuel with
  | O => s
  | S fuel' =>
      match s with
      | EmptyString => EmptyString
      | String c rest =>
          match escape_run s with
          | (EmptyString, _) => String c (replace_runs decoder fuel' rest)
          | (run, after) =>
              append
                (match decoder run with Some r => r | None => run end)
                (replace_runs decoder fuel' after)
          end
      end
  end.

(** Hono's [tryDecode]: the whole string when the decoder accepts it,
    otherwise run by run. *)
Definition tryDecode (decoder : string -> option string) (s : string)
  : string :=
  match decoder s with
  | Some r => r
  | None => replace_runs decoder (String.length s) s
  end.

(** [path.replace(/%25/g, '%2525')] *)
Fixpoint protect_percent (s : string) : string :=
  match s with
  | String "%" (String "2" (String "5" rest)) =>
      append "%2525" (protect_percent rest)
  | String c rest => String c (protect_percent rest)
  | EmptyString => EmptyString
  end.

(** Hono's [getPath]: the path of the request URL, passed through
    [decodeURI] when it holds a percent sign. *)
Definition getPath (request : Request) : string :=
  let path := req_pathname request in
  if contains_percent path
  then tryDecode decodeURI (protect_percent path)
  else path.

(** What [c.req.param] makes of the segment a route parameter matched. *)
Definition decode_param (param : string) : string :=
  if contains_percent param
  then tryDecode decodeURIComponent param
  else param.

(** [c.req.param(name)] *)
Definition req_param (c : Context) (name : string) : option string :=
  option_map decode_param (assoc name (ctx_params c)).

(** [c.json(v, { status })] and [c.newResponse(null, { status })] *)
Definition c_json (v : json) (st : N) : Response := Response_json v st.

Definition c_newResponse_null (st : N) : Response :=
  {| status := st; resp_headers := []; resp_body := BodyNull |}.

Definition getQueryString (c : Context) (name : string) : prog string :=
  match req_query c name with
  | Some val => Ret val
  | None => Throw (HTTPException 400 ("Missing " ++ name))
  end.

Definition getQueryNumber (c : Context) (name : string) : prog number :=
  val <- getQueryString c name ;;
  let n := parseInt val in
  if isNaN n then Throw (HTTPException 400 ("Invalid " ++ name)) else Ret n.

Definition getPathString (c : Context) (name : string) : prog string :=
  match req_param c name with
  | Some val => Ret val
  | None => Throw (HTTPException 400 ("Missing " ++ name))
  end.

Definition getPathNumber (c : Context) (name : string) : prog number :=
  val <- getPathString c name ;;
  let n := parseInt val in
  if isNaN n then Throw (HTTPException 400 ("Invalid " ++ name)) else Ret n.

(** [app.onError] *)
Definition onError (err : exn) : Served :=
  {| response :=
       match err with
       | HTTPException st message => c_json (error_object message) st
       | _ => c_json (error_object "Internal Server Error") 500
       end;
     console := [err] |}.

(** [app.use]: the middleware in front of every route. *)
Definition middleware (c : Context) (next : prog Response) : prog Response :=
  match BUCKET (ctx_env c) with
  | None => Ret (Response_json (error_object "Missing BUCKET binding") 500)
  | Some _ =>
      match AUTH_KEY (ctx_env c) with
      | None =>
          Ret (Response_json (error_object "Missing AUTH_KEY secret") 500)
      | Some _ => next
      end
  end.

(** [app.post('/uploads/create')] *)
Definition uploads_create (c : Context) : prog Response :=
  key <- getQueryString c "key" ;;
  mpu <- on_bucket (ctx_env c) (CreateMultipartUpload key) ;;
  Ret (c_json (JObj [("key", JStr (mpu_key mpu));
                     ("uploadId", JStr (mpu_uploadId mpu))]) 200).

(** [app.post('/uploads/upload-part')] *)
Definition uploads_upload_part (c : Context) : prog Response :=
  match req_body (ctx_req c) with
  | None => Throw (HTTPException 400 "No body")
  | Some body =>
      key <- getQueryString c "key" ;;
      uploadId <- getQueryString c "uploadId" ;;
      partNumber <- getQueryNumber c "partNumber" ;;
      mpu <- on_bucket (ctx_env c) (ResumeMultipartUpload key uploadId) ;;
      part <- on_mpu (UploadPart mpu partNumber body) ;;
      Ret (c_json (JObj [("partNumber", JNum (part_partNumber part));
                         ("etag", JStr (part_etag part))]) 200)
  end.

(** [app.post('/uploads/complete')] *)
Definition uploads_complete (c : Context) : prog Response :=
  key <- getQueryString c "key" ;;
  uploadId <- getQueryString c "uploadId" ;;
  parts <- request_json (ctx_req c) ;;
  match parts with
  | JArr items =>
      ok <- every part_is_valid items ;;
      if negb ok then Throw (HTTPException 400 "Invalid parts")
      else if Nat.eqb (length items) 0
      then Throw (HTTPException 400 "No parts")
      else
        mpu <- on_bucket (ctx_env c) (ResumeMultipartUpload key uploadId) ;;
        on_mpu (Complete mpu items) ;;
        Ret (c_json (JObj [("key", JStr key)]) 200)
  | _ => Throw (HTTPException 400 "Invalid parts")
  end.

(** [app.get('/objects')] *)
Definition objects_list (c : Context) : prog Response :=
  let prefix := req_query c "prefix" in
  listed <- on_bucket (ctx_env c) (ListObjects prefix 1000) ;;
  let objects :=
    map (fun v => JObj [("key", JStr (obj_key v));
                        ("size", JNum (number_of_N (obj_size v)));
                        ("etag", JStr (obj_etag v))]) listed in
  Ret (c_json (JArr objects) 200).

(** [app.get('/objects/:key')] *)
Definition objects_get (c : Context) : prog Response :=
  key <- getPathString c "key" ;;
  object <- on_bucket (ctx_env c) (Get key) ;;
  match object with
  | None => Throw (HTTPException 404 "Not found")
  | Some o =>
      Ret {| status := 200;
             resp_headers := writeHttpMetadata (ob_object o);
             resp_body := BodyStream (ob_body o) |}
  end.

(** [app.get('/objects/:key/stats')] *)
Definition objects_stats (c : Context) : prog Response :=
  key <- getPathString c "key" ;;
  object <- on_bucket (ctx_env c) (Head key) ;;
  match object with
  | None => Throw (HTTPException 404 "Not found")
  | Some o =>
      Ret (c_json (JObj [("size", JNum (number_of_N (obj_size o)));
                         ("etag", JStr (obj_etag o))]) 200)
  end.

(** [app.delete('/objects/:key')] *)
Definition objects_delete (c : Context) : prog Response :=
  key <- getPathString c "key" ;;
  on_bucket (ctx_env c) (Delete key) ;;
  Ret (c_newResponse_null 204).

(** The route table, in registration order, matched against the decoded
    path of [getPath].  A [:key] segment matches one non-empty path segment;
    a trailing slash is significant. *)
Inductive route : Type :=
| UploadsCreate | UploadsUploadPart | UploadsComplete
| ObjectsList | ObjectsGet | ObjectsStats | ObjectsDelete.

Definition nonempty (s : string) : bool := negb (String.eqb s "").

Definition match_route (method : string) (pathname : string)
  : option (route * list (string * string)) :=
  match split "/" pathname with
  | [root; a; b] =>
      if negb (String.eqb root "") then None
      else if String.eqb a "uploads" then
        if negb (String.eqb method "POST") then None
        else if String.eqb b "create" then Some (UploadsCreate, [])
        else if String.eqb b "upload-part" then Some (UploadsUploadPart, [])
        else if String.eqb b "complete" then Some (UploadsComplete, [])
        else None
      else if andb (String.eqb a "objects") (nonempty b) then
        if String.eqb method "GET" then Some (ObjectsGet, [("key", b)])
        else if String.eqb method "DELETE"
             then Some (ObjectsDelete, [("key", b)])
        else None
      else None
  | [root; a] =>
      if andb (String.eqb root "")
           (andb (String.eqb a "objects") (String.eqb method "GET"))
      then Some (ObjectsList, [])
      else None
  | [root; a; b; d] =>
      if andb (String.eqb root "")
           (andb (String.eqb a "objects")
              (andb (nonempty b)
                 (andb (String.eqb d "stats") (String.eqb method "GET"))))
      then Some (ObjectsStats, [("key", b)])
      else None
  | _ => None
  end.

Definition handler (r : route) : Context -> prog Response :=
  match r with
  | UploadsCreate => uploads_create
  | UploadsUploadPart => uploads_upload_part
  | UploadsComplete => uploads_complete
  | ObjectsList => objects_list
  | ObjectsGet => objects_get
  | ObjectsStats => objects_stats
  | ObjectsDelete => objects_delete
  end.

(** Hono's default answer when no route matches (no [app.notFound] is
    registered). *)
Definition notFound : Response := Response_text "404 Not Found" 404.

(** One dispatch of a request under a routing method: the middleware, then
    the route matched on the decoded path; a throw goes to [onError]. *)
Definition dispatch (request : Request) (env : Env) (method : string)
  : prog Served :=
  let matched := match_route method (getPath request) in
  let c := {| ctx_req := request;
              ctx_env := env;
              ctx_params := match matched with
                            | Some (_, params) => params
                            | None => []
                            end |} in
  try_catch
    (r <- middleware c
            (match matched with
             | Some (rt, _) => handler rt c
             | None => Ret notFound
             end) ;;
     Ret (quiet r))
    (fun err => Ret (onError err)).

(** [new Response(null, res)]: the status and headers of [res], no body. *)
Definition head_response (res : Response) : Response :=
  {| status := status res;
     resp_headers := resp_headers res;
     resp_body := BodyNull |}.

(** [app.fetch]: a [HEAD] request is dispatched as a [GET] and answered
    with that response without its body; any other request is dispatched
    under its own method. *)
Definition fetch (request : Request) (env : Env) : prog Served :=
  if String.eqb (req_method request) "HEAD"
  then sv <- dispatch request env "GET" ;;
       Ret {| response := head_response (response sv);
              console := console sv |}
  else dispatch request env (req_method request).

End HonoApp.

(* ================================================================= *)
(** ** The two gateways side by side *)

Inductive gateway : Type :=
| Flat      (* worker/src/index.ts *)
| Nested.   (* the Hono application *)

Definition serve (g : gateway) : Request -> Env -> prog Served :=
  match g with
  | Flat => Worker.fetch
  | Nested => HonoApp.fetch
  end.

(** The operations of the HTTP interface and where each gateway routes
    them: the flat worker by first path segment and method, the Hono
    application by its route table.  The flat worker has no route for
    listing or deleting. *)
Inductive operation : Type :=
| StartUpload | UploadPartOp | CompleteUpload | Download | Stats
| ListOp | DeleteOp.

Definition first_path (req : Request) : option string :=
  nth_error (split "/" (req_pathname req)) 1.

Definition flat_route (o : operation) : option (string * string) :=
  match o with
  | StartUpload => Some ("start-upload", "POST")
  | UploadPartOp => Some ("upload-part", "POST")
  | CompleteUpload => Some ("complete-upload", "POST")
  | Download => Some ("download", "GET")
  | Stats => Some ("stats", "GET")
  | ListOp | DeleteOp => None
  end.

Definition nested_route (o : operation) : HonoApp.route :=
  match o with
  | StartUpload => HonoApp.UploadsCreate
  | UploadPartOp => HonoApp.UploadsUploadPart
  | CompleteUpload => HonoApp.UploadsComplete
  | Download => HonoApp.ObjectsGet
  | Stats => HonoApp.ObjectsStats
  | ListOp => HonoApp.ObjectsList
  | DeleteOp => HonoApp.ObjectsDelete
  end.

Definition route_eqb (a b : HonoApp.route) : bool :=
  match a, b with
  | HonoApp.UploadsCreate, HonoApp.UploadsCreate
  | HonoApp.UploadsUploadPart, HonoApp.UploadsUploadPart
  | HonoApp.UploadsComplete, HonoApp.UploadsComplete
  | HonoApp.ObjectsList, HonoApp.ObjectsList
  | HonoApp.ObjectsGet, HonoApp.ObjectsGet
  | HonoApp.ObjectsStats, HonoApp.ObjectsStats
  | HonoApp.ObjectsDelete, HonoApp.ObjectsDelete => true
  | _, _ => false
  end.

(** [addresses g o req]: the method and path of [req] select operation [o]
    on gateway [g]. *)
Definition addresses (g : gateway) (o : operation) (req : Request) : bool :=
  match g with
  | Flat =>
      match flat_route o, first_path req with
      | Some (seg, method), Some fp =>
          andb (String.eqb fp seg) (String.eqb (req_method req) method)
      | _, _ => false
      end
  | Nested =>
      match HonoApp.match_route (req_method req) (HonoApp.getPath req) with
      | Some (rt, _) => route_eqb rt (nested_route o)
      | None => false
      end
  end.

Definition bucket_bound (env : Env) : bool :=
  match BUCKET env with Some _ => true | None => false end.

Definition secret_bound (env : Env) : bool :=
  match AUTH_KEY env with Some _ => true | None => false end.

(** [admitted g req env]: the request gets past what gateway [g] runs in
    front of its routes: the credential comparison of the flat worker, the
    binding checks of the Hono middleware. *)
Definition admitted (g : gateway) (req : Request) (env : Env) : bool :=
  match g with
  | Flat =>
      negb (Worker.auth_rejected
              (headers_get (req_headers req) "Authorization") env)
  | Nested => andb (bucket_bound env) (secret_bound env)
  end.

(** The request carries no credential, or one that is not the configured
    secret. *)
Definition unauthorized (req : Request) (env : Env) : bool :=
  match headers_get (req_headers req) "Authorization", AUTH_KEY env with
  | Some a, Some k => negb (String.eqb a k)
  | _, _ => true
  end.

(** The part shape the handlers accept: an object with a number
    [partNumber] and a string [etag]. *)
Definition well_typed_part (v : json) : bool :=
  match v with
  | JObj props =>
      match assoc "partNumber" props, assoc "etag" props with
      | Some (JNum _), Some (JStr _) => true
      | _, _ => false
      end
  | _ => false
  end.

(** The part shape of the interface description: the same with an integer
    [partNumber]. *)
Definition integer_part (v : json) : bool :=
  match v with
  | JObj props =>
      match assoc "partNumber" props, assoc "etag" props with
      | Some (JNum n), Some (JStr _) => isInteger n
      | _, _ => false
      end
  | _ => false
  end.

Definition is_null (v : json) : bool :=
  match v with JNull => true | _ => false end.

(* ================================================================= *)
(** ** A reference backing store *)

(** R2 itself lies outside the repository.  [MemStore] is a small in-memory
    bucket with multipart sessions, used to exercise the handlers on
    concrete requests. *)
Module MemStore.

Record state : Type := {
  objects : list (string * R2ObjectBody);
  parts : list (R2MultipartUpload * number * string)
}.

Definition empty : state := {| objects := []; parts := [] |}.

Definition number_eqb (a b : number) : bool :=
  match a, b with
  | Finite n1 m1 k1, Finite n2 m2 k2 =>
      andb (Bool.eqb n1 n2) (andb (N.eqb m1 m2) (N.eqb k1 k2))
  | Infinity n1, Infinity n2 => Bool.eqb n1 n2
  | _, _ => false
  end.

Definition mpu_eqb (a b : R2MultipartUpload) : bool :=
  andb (String.eqb (mpu_key a) (mpu_key b))
       (String.eqb (mpu_uploadId a) (mpu_uploadId b)).

Definition etag_of (bytes : string) : string := "etag:" ++ bytes.

Definition find_part (s : state) (mpu : R2MultipartUpload) (part : json)
  : option string :=
  match part with
  | JObj props =>
      match assoc "partNumber" props with
      | Some (JNum n) =>
          match find (fun p => andb (mpu_eqb (fst (fst p)) mpu)
                                    (number_eqb (snd (fst p)) n))
                     (parts s) with
          | Some p => Some (snd p)
          | None => None
          end
      | _ => None
      end
  | _ => None
  end.

Fixpoint assemble (s : state) (mpu : R2MultipartUpload) (l : list json)
  : option string :=
  match l with
  | [] => Some ""
  | p :: l' =>
      match find_part s mpu p, assemble s mpu l' with
      | Some b, Some rest => Some (b ++ rest)%string
      | _, _ => None
      end
  end.

Definition object_of (key bytes : string) : R2Object :=
  {| obj_key := key;
     obj_size := N.of_nat (String.length bytes);
     obj_etag := etag_of bytes;
     obj_httpMetadata := [("etag", etag_of bytes)] |}.

Definition without (key : string) (l : list (string * R2ObjectBody)) :=
  filter (fun kv => negb (String.eqb (fst kv) key)) l.

Definition respond (R : Type) (s : state) (op : store_op R)
  : reply R * state :=
  match op in store_op T return reply T * state with
  | CreateMultipartUpload key =>
      (Returns {| mpu_key := key; mpu_uploadId := "upload-1" |}, s)
  | ResumeMultipartUpload key uploadId =>
      (Returns {| mpu_key := key; mpu_uploadId := uploadId |}, s)
  | UploadPart mpu n bytes =>
      (Returns {| part_partNumber := n; part_etag := etag_of bytes |},
       {| objects := objects s; parts := (mpu, n, bytes) :: parts s |})
  | Complete mpu l =>
      match assemble s mpu l with
      | Some bytes =>
          let o := object_of (mpu_key mpu) bytes in
          (Returns o,
           {| objects :=
                (mpu_key mpu, {| ob_object := o; ob_body := bytes |})
                  :: without (mpu_key mpu) (objects s);
              parts := parts s |})
      | None => (Rejects "Error" "The specified part does not exist", s)
      end
  | Get key => (Returns (assoc key (objects s)), s)
  | Head key =>
      (Returns (option_map ob_object (assoc key (objects s))), s)
  | ListObjects prefix limit =>
      (Returns
         (firstn (N.to_nat limit)
            (map (fun kv => ob_object (snd kv))
               (filter (fun kv =>
                          match prefix with
                          | Some p => String.prefix p (fst kv)
                          | None => true
                          end) (objects s)))), s)
  | Delete key =>
      (Returns tt, {| objects := without key (objects s); parts := parts s |})
  end.

End MemStore.

(* ================================================================= *)
(** ** Vocabulary of the statements *)

(** The [partNumber] query parameter is missing or [parseInt] makes nothing
    of it. *)
Definition part_number_unparsable (req : Request) : bool :=
  match searchParams_get req "partNumber" with
  | None => true
  | Some value => isNaN (parseInt value)
  end.

Definition is_success (resp : Response) : bool :=
  andb (N.leb 200 (status resp)) (N.ltb (status resp) 300).

(** A JSON body [{"error": <message>}] under one of the error statuses. *)
Definition is_structured_error (resp : Response) : bool :=
  match resp_body resp with
  | BodyJson (JObj [(name, JStr _)]) =>
      andb (String.eqb name "error")
           (existsb (N.eqb (status resp)) [400; 401; 404; 405; 500]%N)
  | _ => false
  end.

(** A plain-text body under status 400 or 405: what [checkMethod],
    [getUrlParam] and [getUrlParamNumber] of the flat worker throw. *)
Definition is_plain_text_error (resp : Response) : bool :=
  match resp_body resp with
  | BodyText _ => existsb (N.eqb (status resp)) [400; 405]%N
  | _ => false
  end.

(* ================================================================= *)
(** ** Concrete requests and buckets *)

Module Samples.

Definition env : Env :=
  {| BUCKET := Some R2BucketBinding; AUTH_KEY := Some "s3cret" |}.

Definition credential : Headers := [("Authorization", "s3cret")].

Definition request (method pathname : string)
           (query : list (string * string)) (headers : Headers)
           (body : option string) (parsed : option json) : Request :=
  {| req_method := method;
     req_pathname := pathname;
     req_searchParams := query;
     req_headers := headers;
     req_body := body;
     req_json := parsed |}.

Definition part (n : number) (etag : string) : json :=
  JObj [("partNumber", JNum n); ("etag", JStr etag)].

(** A bucket holding the object [a.txt]. *)
Definition with_a_txt : MemStore.state :=
  {| MemStore.objects :=
       [("a.txt", {| ob_object := MemStore.object_of "a.txt" "hello";
                     ob_body := "hello" |})];
     MemStore.parts := [] |}.

(** A bucket with one open session for [a.txt] holding the given parts. *)
Definition session (l : list (number * string)) : MemStore.state :=
  {| MemStore.objects := [];
     MemStore.parts :=
       map (fun p => ({| mpu_key := "a.txt"; mpu_uploadId := "u1" |},
                      fst p, snd p)) l |}.

End Samples.

(** A parts list with a repeated, a zero, a negative and out-of-order part
    numbers. *)
Definition unordered_parts : list json :=
  [Samples.part (number_of_Z 2) "E2";
   Samples.part (number_of_Z 2) "E2";
   Samples.part (number_of_Z 0) "E0";
   Samples.part (number_of_Z (-1)) "E-1";
   Samples.part (number_of_Z 1) "E1"].

(* ================================================================= *)
(** ** Vocabulary for the remaining routes *)

(** The key a download, stats or delete request names: the [key] query
    parameter on the flat worker; on the Hono application the segment of the
    decoded path bound to [:key], as [c.req.param] decodes it. *)
Definition object_key (g : gateway) (req : Request) : option string :=
  match g with
  | Flat => searchParams_get req "key"
  | Nested =>
      option_map HonoApp.decode_param
        (nth_error (split "/" (HonoApp.getPath req)) 2)
  end.

(** The calls that change what the bucket holds. *)
Definition mutating (c : call) : bool :=
  match c with
  | CallOf op =>
      match op with
      | CreateMultipartUpload _ => true
      | UploadPart _ _ _ => true
      | Complete _ _ => true
      | Delete _ => true
      | _ => false
      end
  end.

(** The store rejected the call of this exchange. *)
Definition rejected (x : exchange) : bool :=
  match x with
  | Exchange _ (Rejects _ _) => true
  | Exchange _ (Returns _) => false
  end.

(** The answer each gateway gives to an error it does not know. *)
Definition internal_error (g : gateway) : Response :=
  match g with
  | Flat => Response_json (error_object "Internal server error") 500
  | Nested => Response_json (error_object "Internal Server Error") 500
  end.

(** The answer each gateway gives when a required query parameter is
    missing, and when a numeric one does not parse. *)
Definition missing_parameter (g : gateway) (name : string) : Response :=
  match g with
  | Flat => Response_text ("Invalid or missing " ++ name) 400
  | Nested => Response_json (error_object ("Missing " ++ name)) 400
  end.

Definition invalid_parameter (g : gateway) (name : string) : Response :=
  match g with
  | Flat => Response_text ("Invalid " ++ name) 400
  | Nested => Response_json (error_object ("Invalid " ++ name)) 400
  end.

(** A JSON body [{"error": <message>}] under one of the given statuses. *)
Definition is_json_error (statuses : list N) (resp : Response) : bool :=
  match resp_body resp with
  | BodyJson (JObj [(name, JStr _)]) =>
      andb (String.eqb name "error")
           (existsb (N.eqb (status resp)) statuses)
  | _ => false
  end.

(** The method under which the Hono application routes a request: a [HEAD]
    request goes through the [GET] routes. *)
Definition routed_as (req : Request) : string :=
  if String.eqb (req_method req) "HEAD" then "GET" else req_method req.

(** The request asks to read: a [GET], or a [HEAD] on the Hono
    application. *)
Definition reads (g : gateway) (req : Request) : bool :=
  orb (String.eqb (req_method req) "GET")
      (match g with
       | Nested => String.eqb (req_method req) "HEAD"
       | Flat => false
       end).

(** What goes out for a response the handlers produced: on the Hono
    application the answer to a [HEAD] request loses its body. *)
Definition on_the_wire (g : gateway) (req : Request) (resp : Response)
  : Response :=
  match g with
  | Flat => resp
  | Nested =>
      if String.eqb (req_method req) "HEAD"
      then HonoApp.head_response resp
      else resp
  end.

(** Reading a number off the front of a string.  [digits_string ds] writes
    the digits [ds]; [decimal_value ds] is the integer they denote in base
    10. *)
Definition digits_string (ds : list N) : string :=
  bytes (map (N.add 48) ds).

Fixpoint decimal_value (ds : list N) : N :=
  match ds with
  | [] => 0
  | d :: rest => d * 10 ^ N.of_nat (length rest) + decimal_value rest
  end.

Definition is_digit (c : ascii) : bool := between 48 57 (N_of_ascii c).

Definition starts_with_digit (s : string) : bool :=
  match s with
  | String c _ => is_digit c
  | EmptyString => false
  end.

(** None of the strings [ps] starts [s]. *)
Definition no_prefix (ps : list string) (s : string) : Prop :=
  Forall (fun p => strip_prefix p s = None) ps.

(** [prefix_reading s r]: after leading white space and an optional sign,
    [s] goes on with a non-empty run of decimal digits, which [r] gives with
    the sign; or it does not, and [r] is [None].  What follows the digits
    is unconstrained. *)
Inductive prefix_reading : string -> option (bool * N) -> Prop :=
| reads_number (wss : list string) (sign : string) (ds : list N)
               (rest : string) :
    Forall (fun w => In w white_space) wss ->
    In sign [""; "+"; "-"] ->
    ds <> [] ->
    Forall (fun d => (d < 10)%N) ds ->
    starts_with_digit rest = false ->
    prefix_reading
      (String.concat "" wss ++ sign ++ digits_string ds ++ rest)
      (Some (String.eqb sign "-", decimal_value ds))
| reads_nothing_signed (wss : list string) (sign : string) (rest : string) :
    Forall (fun w => In w white_space) wss ->
    In sign ["+"; "-"] ->
    starts_with_digit rest = false ->
    prefix_reading (String.concat "" wss ++ sign ++ rest) None
| reads_nothing (wss : list string) (rest : string) :
    Forall (fun w => In w white_space) wss ->
    no_prefix (white_space ++ ["+"; "-"]) rest ->
    starts_with_digit rest = false ->
    prefix_reading (String.concat "" wss ++ rest) None.

(** A base-10 integer in the strict sense: an optional minus sign and
    digits, nothing else. *)
Definition is_decimal_integer (s : string) : bool :=
  let digits := match s with String "-" t => t | _ => s end in
  andb (negb (String.eqb digits ""))
       (forallb is_digit (list_ascii_of_string digits)).

(** The JSON rendering of a listed or inspected object. *)
Definition object_summary (o : R2Object) : json :=
  JObj [("key", JStr (obj_key o));
        ("size", JNum (number_of_N (obj_size o)));
        ("etag", JStr (obj_etag o))].

(** A program in which every call is awaited: a rejection is thrown at
    once, as the error the store gave. *)
Inductive awaiting (A : Type) : prog A -> Prop :=
| awaiting_Ret (a : A) : awaiting (Ret a)
| awaiting_Throw (e : exn) : awaiting (Throw e)
| awaiting_Call (R : Type) (op : store_op R) (k : reply R -> prog A) :
    (forall n m, k (Rejects n m) = Throw (Error n m)) ->
    (forall r, awaiting (k (Returns r))) ->
    awaiting (Call op k).

(** The call sequences a request can give rise to on a gateway. *)
Inductive possible_calls (g : gateway) (req : Request) (env : Env)
  : list call -> Prop :=
| pc_none : possible_calls g req env []
| pc_create (key : string) :
    bucket_bound env = true -> req_method req = "POST" ->
    searchParams_get req "key" = Some key ->
    possible_calls g req env [CallOf (CreateMultipartUpload key)]
| pc_resume (key uploadId : string) :
    bucket_bound env = true -> req_method req = "POST" ->
    searchParams_get req "key" = Some key ->
    searchParams_get req "uploadId" = Some uploadId ->
    possible_calls g req env [CallOf (ResumeMultipartUpload key uploadId)]
| pc_upload (key uploadId value body : string) (mpu : R2MultipartUpload) :
    bucket_bound env = true -> req_method req = "POST" ->
    searchParams_get req "key" = Some key ->
    searchParams_get req "uploadId" = Some uploadId ->
    searchParams_get req "partNumber" = Some value ->
    req_body req = Some body ->
    possible_calls g req env
      [CallOf (ResumeMultipartUpload key uploadId);
       CallOf (UploadPart mpu (parseInt value) body)]
| pc_complete (key uploadId : string) (items : list json)
              (mpu : R2MultipartUpload) :
    bucket_bound env = true -> req_method req = "POST" ->
    searchParams_get req "key" = Some key ->
    searchParams_get req "uploadId" = Some uploadId ->
    req_json req = Some (JArr items) ->
    possible_calls g req env
      [CallOf (ResumeMultipartUpload key uploadId);
       CallOf (Complete mpu items)]
| pc_get (key : string) :
    bucket_bound env = true -> reads g req = true ->
    object_key g req = Some key ->
    possible_calls g req env [CallOf (Get key)]
| pc_head (key : string) :
    bucket_bound env = true -> reads g req = true ->
    object_key g req = Some key ->
    possible_calls g req env [CallOf (Head key)]
| pc_list :
    g = Nested ->
    bucket_bound env = true -> reads g req = true ->
    possible_calls g req env
      [CallOf (ListObjects (searchParams_get req "prefix") 1000)]
| pc_delete (key : string) :
    g = Nested ->
    bucket_bound env = true -> req_method req = "DELETE" ->
    object_key g req = Some key ->
    possible_calls g req env [CallOf (Delete key)].

(** The operations that take the object key as the [key] query parameter:
    all five of the flat worker, the three uploads of the Hono
    application. *)
Definition takes_key_parameter (g : gateway) (o : operation) : bool :=
  match g, o with
  | _, StartUpload | _, UploadPartOp | _, CompleteUpload => true
  | Flat, Download | Flat, Stats => true
  | _, _ => false
  end.

(** A number without fractional part, or an infinity. *)
Definition integral (n : number) : bool :=
  match n with
  | NaN => false
  | Infinity _ => true
  | Finite _ _ _ => isInteger n
  end.

(* ================================================================= *)
(** ** Facts about running programs *)

Section RunFacts.

Variable S : Type.
Variable respond : forall R : Type, S -> store_op R -> reply R * S.

Lemma calls_Ret (A : Type) (a : A) (s : S) : calls respond (Ret a) s = [].
Proof. reflexivity. Qed.

Lemma answered_Ret (sv : Served) (s : S) :
  answered respond (Ret sv) s = Some (response sv).
Proof. reflexivity. Qed.

Lemma transcript_Call (A R : Type) (op : store_op R)
      (k : reply R -> prog A) (s : S) :
  transcript respond (Call op k) s =
  Exchange op (fst (respond s op))
    :: transcript respond (k (fst (respond s op))) (snd (respond s op)).
Proof.
  unfold transcript; simpl.
  destruct (respond s op) as [ans s1]; simpl.
  destruct (run respond (k ans) s1) as [[c t] s2]; reflexivity.
Qed.

Lemma calls_Call (A R : Type) (op : store_op R)
      (k : reply R -> prog A) (s : S) :
  calls respond (Call op k) s =
  CallOf op :: calls respond (k (fst (respond s op))) (snd (respond s op)).
Proof. unfold calls; rewrite transcript_Call; reflexivity. Qed.

Lemma answers_Call (A R : Type) (op : store_op R)
      (k : reply R -> prog A) (s : S) :
  answers respond (Call op k) s =
  AnswerOf (fst (respond s op))
    :: answers respond (k (fst (respond s op))) (snd (respond s op)).
Proof. unfold answers; rewrite transcript_Call; reflexivity. Qed.

Lemma outcome_Call (A R : Type) (op : store_op R)
      (k : reply R -> prog A) (s : S) :
  outcome respond (Call op k) s =
  outcome respond (k (fst (respond s op))) (snd (respond s op)).
Proof.
  unfold outcome; simpl.
  destruct (respond s op) as [ans s1]; simpl.
  destruct (run respond (k ans) s1) as [[c t] s2]; reflexivity.
Qed.

Lemma answered_Call (R : Type) (op : store_op R)
      (k : reply R -> prog Served) (s : S) :
  answered respond (Call op k) s =
  answered respond (k (fst (respond s op))) (snd (respond s op)).
Proof. unfold answered; rewrite outcome_Call; reflexivity. Qed.

Lemma transcript_bind_Ret (A B : Type) (p : prog A) (f : A -> B) :
  forall s,
    transcript respond (bind p (fun a => Ret (f a))) s
    = transcript respond p s.
Proof.
  induction p as [a|e|R op k IH]; intros s; try reflexivity.
  cbn [bind]. rewrite !transcript_Call, IH. reflexivity.
Qed.

Lemma calls_bind_Ret (A B : Type) (p : prog A) (f : A -> B) (s : S) :
  calls respond (bind p (fun a => Ret (f a))) s = calls respond p s.
Proof. unfold calls; rewrite transcript_bind_Ret; reflexivity. Qed.

Lemma outcome_bind_Ret (A B : Type) (p : prog A) (f : A -> B) :
  forall s,
    outcome respond (bind p (fun a => Ret (f a))) s
    = match outcome respond p s with
      | Returned a => Returned (f a)
      | Thrown e => Thrown e
      end.
Proof.
  induction p as [a|e|R op k IH]; intros s; try reflexivity.
  cbn [bind]. rewrite !outcome_Call, IH. reflexivity.
Qed.

End RunFacts.

(* ----------------------------------------------------------------- *)
(** *** Getting past the gate and into a route *)

Lemma flat_admitted (req : Request) (env : Env) :
  admitted Flat req env = true ->
  Worker.auth_rejected (headers_get (req_headers req) "Authorization") env
  = false.
Proof. unfold admitted; intros H; apply negb_true_iff in H; exact H. Qed.

Lemma flat_addresses (o : operation) (req : Request) :
  addresses Flat o req = true ->
  exists seg method,
    flat_route o = Some (seg, method) /\
    nth_error (split "/" (req_pathname req)) 1 = Some seg /\
    req_method req = method.
Proof.
  unfold addresses, first_path.
  destruct (flat_route o) as [[seg method]|]; [|discriminate].
  destruct (nth_error _ 1) as [fp|]; [|discriminate].
  intros H; apply andb_true_iff in H; destruct H as [H1 H2].
  apply String.eqb_eq in H1; apply String.eqb_eq in H2; subst.
  exists seg, (req_method req); auto.
Qed.

Lemma nested_admitted (req : Request) (env : Env) :
  admitted Nested req env = true ->
  exists b k, BUCKET env = Some b /\ AUTH_KEY env = Some k.
Proof.
  unfold admitted, bucket_bound, secret_bound.
  destruct (BUCKET env) as [b|]; [|discriminate].
  destruct (AUTH_KEY env) as [k|]; [|discriminate].
  intros _; exists b, k; auto.
Qed.

Lemma match_route_not_head (pathname : string) :
  HonoApp.match_route "HEAD" pathname = None.
Proof.
  unfold HonoApp.match_route.
  destruct (split "/" pathname) as [|root [|a [|b [|d [|e rest]]]]];
    try reflexivity; simpl.
  - rewrite !andb_false_r; reflexivity.
  - destruct (negb (String.eqb root "")); [reflexivity|].
    destruct (String.eqb a "uploads"); [reflexivity|].
    destruct (andb _ _); reflexivity.
  - rewrite !andb_false_r; reflexivity.
Qed.

Lemma nested_addresses (o : operation) (req : Request) :
  addresses Nested o req = true ->
  exists params,
    HonoApp.match_route (req_method req) (HonoApp.getPath req)
    = Some (nested_route o, params)
    /\ String.eqb (req_method req) "HEAD" = false.
Proof.
  unfold addresses.
  destruct (HonoApp.match_route _ _) as [[rt params]|] eqn:Hr; [|discriminate].
  intros H; exists params. split.
  - destruct rt, o; simpl in H; try discriminate; reflexivity.
  - destruct (String.eqb (req_method req) "HEAD") eqn:Hh; [|reflexivity].
    apply String.eqb_eq in Hh; rewrite Hh, match_route_not_head in Hr.
    discriminate Hr.
Qed.

(** Entering a flat route: the credential check and the method check are
    passed, the switch selects the case of the operation. *)
Ltac enter_flat Hadm Haddr Hm :=
  let seg := fresh "seg" in
  let method := fresh "method" in
  let Hr := fresh "Hr" in
  let Hp := fresh "Hp" in
  let Hs := fresh "Hs" in
  let Hv := fresh "Hv" in
  apply flat_admitted in Hadm;
  apply flat_addresses in Haddr;
  destruct Haddr as (seg & method & Hr & Hp & Hm);
  simpl in Hr; injection Hr as Hs Hv;
  rewrite <- Hs in Hp; rewrite <- Hv in Hm; clear Hs Hv seg method;
  unfold serve, Worker.fetch, Worker.handleRequest;
  rewrite Hadm, Hp; simpl throw_if; cbv beta iota;
  simpl String.eqb; cbv beta iota.

Lemma checkMethod_passes (req : Request) (method : string) :
  req_method req = method -> Worker.checkMethod req method = Ret tt.
Proof.
  intros H; unfold Worker.checkMethod; rewrite H, String.eqb_refl; reflexivity.
Qed.

(** Entering a Hono route: the middleware lets the request through and the
    matched handler runs. *)
Ltac enter_nested Hadm Haddr Hr :=
  let b := fresh "b" in
  let k := fresh "k" in
  let Hb := fresh "Hb" in
  let Hk := fresh "Hk" in
  let params := fresh "params" in
  apply nested_admitted in Hadm;
  destruct Hadm as (b & k & Hb & Hk);
  let Hhead := fresh "Hhead" in
  apply nested_addresses in Haddr;
  destruct Haddr as (params & Hr & Hhead);
  unfold serve, HonoApp.fetch; rewrite Hhead;
  unfold HonoApp.dispatch, HonoApp.middleware;
  rewrite Hr; simpl nested_route;
  cbn [HonoApp.ctx_env HonoApp.ctx_req HonoApp.handler];
  rewrite Hb, Hk.

(* ================================================================= *)
(** ** The credential gate *)

(** X1: the flat worker answers every request without the configured
    credential with 401 and calls nothing. *)
Theorem flat_rejects_bad_credential
        (req : Request) (env : Env)
        (S : Type) (respond : forall R : Type, S -> store_op R -> reply R * S)
        (s : S) :
  unauthorized req env = true ->
  answered respond (serve Flat req env) s
  = Some (Response_json (error_object "Unauthorized") 401)
  /\ calls respond (serve Flat req env) s = [].
Proof.
  intros H.
  unfold serve, Worker.fetch, Worker.handleRequest.
  change (Worker.auth_rejected
            (headers_get (req_headers req) "Authorization") env)
    with (unauthorized req env).
  rewrite H; simpl; split; reflexivity.
Qed.

(** X2: the Hono application never looks at the request headers: replacing
    them changes nothing in what it does. *)
Lemma nested_ignores_headers (req : Request) (env : Env) (h : Headers) :
  serve Nested
    {| req_method := req_method req;
       req_pathname := req_pathname req;
       req_searchParams := req_searchParams req;
       req_headers := h;
       req_body := req_body req;
       req_json := req_json req |} env
  = serve Nested req env.
Proof.
  assert (Hd : forall method,
             HonoApp.dispatch
               {| req_method := req_method req;
                  req_pathname := req_pathname req;
                  req_searchParams := req_searchParams req;
                  req_headers := h;
                  req_body := req_body req;
                  req_json := req_json req |} env method
             = HonoApp.dispatch req env method).
  { intros method. unfold HonoApp.dispatch, HonoApp.getPath.
    simpl req_pathname.
    destruct (HonoApp.match_route method _) as [[rt params]|]; [|reflexivity].
    destruct rt; reflexivity. }
  unfold serve, HonoApp.fetch; simpl req_method.
  rewrite !Hd; reflexivity.
Qed.

(** C1, at a request the Hono application serves although it carries no
    credential: [DELETE /objects/a.txt] without an [Authorization] header is
    answered 204 and the object is deleted from the bucket. *)
Theorem nested_serves_without_credential :
  let req := Samples.request "DELETE" "/objects/a.txt" [] [] None None in
  unauthorized req Samples.env = true
  /\ answered MemStore.respond (serve Nested req Samples.env)
       Samples.with_a_txt
     = Some (HonoApp.c_newResponse_null 204)
  /\ calls MemStore.respond (serve Nested req Samples.env) Samples.with_a_txt
     = [CallOf (Delete "a.txt")]
  /\ MemStore.objects
       (final_state MemStore.respond (serve Nested req Samples.env)
          Samples.with_a_txt) = [].
Proof. repeat split. Qed.

(* ================================================================= *)
(** ** Upload part: the body check *)

(** C3: an upload-part request without a body is answered 400
    [{"error": "No body"}] and no call reaches the backing store (neither
    the session handle nor the part upload). *)
Theorem upload_part_without_body
        (g : gateway) (req : Request) (env : Env)
        (S : Type) (respond : forall R : Type, S -> store_op R -> reply R * S)
        (s : S) :
  admitted g req env = true ->
  addresses g UploadPartOp req = true ->
  req_body req = None ->
  answered respond (serve g req env) s
  = Some (Response_json (error_object "No body") 400)
  /\ calls respond (serve g req env) s = [].
Proof.
  intros Hadm Haddr Hbody. destruct g.
  - enter_flat Hadm Haddr Hm.
    unfold Worker.upload_part.
    rewrite (checkMethod_passes req Hm), Hbody; simpl.
    split; reflexivity.
  - enter_nested Hadm Haddr Hr.
    unfold HonoApp.uploads_upload_part; cbn [HonoApp.ctx_req].
    rewrite Hbody; simpl.
    split; reflexivity.
Qed.

Lemma upload_part_without_body_witness :
  let req := Samples.request "POST" "/upload-part"
               [("key", "a.txt"); ("uploadId", "u1"); ("partNumber", "1")]
               Samples.credential None None in
  answered MemStore.respond (serve Flat req Samples.env) MemStore.empty
  = Some (Response_json (error_object "No body") 400)
  /\ calls MemStore.respond (serve Flat req Samples.env) MemStore.empty = [].
Proof.
  apply (@upload_part_without_body Flat); reflexivity.
Defined.

(* ================================================================= *)
(** ** Complete upload: validation of the parts *)

(** On a value other than [null] the callback of [every] computes
    [well_typed_part]; on [null] it throws. *)
Lemma part_is_valid_spec (part : json) :
  is_null part = false -> part_is_valid part = Ret (well_typed_part part).
Proof.
  intros Hn; destruct part as [|b|n|str|items|props];
    try discriminate; try reflexivity.
  unfold part_is_valid, get_prop, well_typed_part.
  destruct (assoc "partNumber" props) as [[]|];
    destruct (assoc "etag" props) as [[]|]; reflexivity.
Qed.

Lemma well_typed_part_not_null (part : json) :
  well_typed_part part = true -> is_null part = false.
Proof. destruct part; simpl; intros H; (discriminate || reflexivity). Qed.

Lemma every_valid_accepts (items : list json) :
  forallb well_typed_part items = true ->
  every part_is_valid items = Ret true.
Proof.
  induction items as [|x rest IH]; simpl; intros H; [reflexivity|].
  apply andb_true_iff in H; destruct H as [Hx Hrest].
  rewrite (part_is_valid_spec x (well_typed_part_not_null x Hx)), Hx; simpl.
  exact (IH Hrest).
Qed.

Lemma every_valid_rejects (items : list json) :
  existsb is_null items = false ->
  forallb well_typed_part items = false ->
  every part_is_valid items = Ret false.
Proof.
  induction items as [|x rest IH]; simpl; intros Hn H; [discriminate|].
  apply orb_false_iff in Hn; destruct Hn as [Hx Hrest].
  rewrite (part_is_valid_spec x Hx); simpl.
  destruct (well_typed_part x); simpl in *; [exact (IH Hrest H)|reflexivity].
Qed.

(** Conversely, when [every] accepts, every part has the accepted shape. *)
Lemma every_valid_accepts_inv (items : list json) :
  every part_is_valid items = Ret true ->
  forallb well_typed_part items = true.
Proof.
  induction items as [|x rest IH]; simpl; intros H; [reflexivity|].
  destruct (is_null x) eqn:Hx.
  - destruct x; try discriminate Hx. simpl in H. discriminate H.
  - rewrite (part_is_valid_spec x Hx) in H; simpl in H.
    destruct (well_typed_part x); simpl in *; [exact (IH H)|discriminate H].
Qed.

(** The validation either settles on a boolean or throws a [TypeError]. *)
Lemma every_valid_cases (items : list json) :
  (exists b, every part_is_valid items = Ret b)
  \/ (exists e, every part_is_valid items = Throw (Error "TypeError" e)).
Proof.
  induction items as [|x rest IH]; [left; exists true; reflexivity|].
  cbn [every]. destruct (is_null x) eqn:Hx.
  - destruct x; try discriminate. right; eexists; reflexivity.
  - rewrite (part_is_valid_spec x Hx); cbn [bind].
    destruct (well_typed_part x); [exact IH | left; exists false; reflexivity].
Qed.

(** C2: a complete-upload request whose body is the empty array is answered
    with status 400, and the backing store receives no call at all; in
    particular its finalize operation is not invoked. *)
Theorem complete_upload_empty_parts
        (g : gateway) (req : Request) (env : Env)
        (S : Type) (respond : forall R : Type, S -> store_op R -> reply R * S)
        (s : S) :
  admitted g req env = true ->
  addresses g CompleteUpload req = true ->
  req_json req = Some (JArr []) ->
  (exists resp, answered respond (serve g req env) s = Some resp
                /\ status resp = 400%N)
  /\ calls respond (serve g req env) s = [].
Proof.
  intros Hadm Haddr Hjson. destruct g.
  - enter_flat Hadm Haddr Hm.
    unfold Worker.complete_upload, Worker.getUrlParam, request_json.
    rewrite (checkMethod_passes req Hm), Hjson.
    destruct (searchParams_get req "key");
      destruct (searchParams_get req "uploadId"); simpl;
      (split; [eexists; split; reflexivity | reflexivity]).
  - enter_nested Hadm Haddr Hr.
    unfold HonoApp.uploads_complete, HonoApp.getQueryString,
      HonoApp.req_query, request_json; cbn [HonoApp.ctx_req].
    rewrite Hjson.
    destruct (searchParams_get req "key");
      destruct (searchParams_get req "uploadId"); simpl;
      (split; [eexists; split; reflexivity | reflexivity]).
Qed.

Lemma complete_upload_empty_parts_witness :
  let req := Samples.request "POST" "/uploads/complete"
               [("key", "a.txt"); ("uploadId", "u1")] []
               (Some "[]") (Some (JArr [])) in
  (exists resp,
      answered MemStore.respond (serve Nested req Samples.env)
        (Samples.session [(number_of_N 1, "hello")]) = Some resp
      /\ status resp = 400%N)
  /\ calls MemStore.respond (serve Nested req Samples.env)
       (Samples.session [(number_of_N 1, "hello")]) = [].
Proof.
  apply (@complete_upload_empty_parts Nested); reflexivity.
Defined.

(* ================================================================= *)
(** ** Start upload: the key *)

(** C4, as stated, fails on an empty key: [POST /start-upload?key=] (and
    [POST /uploads/create?key=]) passes the presence check and the bucket is
    asked to create a multipart upload for the key [""]. *)
Lemma start_upload_empty_key_reaches_store :
  let flat := Samples.request "POST" "/start-upload" [("key", "")]
                Samples.credential None None in
  let nested := Samples.request "POST" "/uploads/create" [("key", "")]
                  [] None None in
  let created := Response_json (JObj [("key", JStr "");
                                      ("uploadId", JStr "upload-1")]) 200 in
  searchParams_get flat "key" = Some ""
  /\ calls MemStore.respond (serve Flat flat Samples.env) MemStore.empty
     = [CallOf (CreateMultipartUpload "")]
  /\ answered MemStore.respond (serve Flat flat Samples.env) MemStore.empty
     = Some created
  /\ calls MemStore.respond (serve Nested nested Samples.env) MemStore.empty
     = [CallOf (CreateMultipartUpload "")]
  /\ answered MemStore.respond (serve Nested nested Samples.env) MemStore.empty
     = Some created
  /\ calls MemStore.respond (serve Flat flat Samples.env) MemStore.empty <> [].
Proof. repeat split; discriminate. Qed.

(** C4, amended: start-upload validates that the [key] query parameter is
    present, not that it is non-empty.  Without the parameter the request is
    answered 400 and nothing is called; with it, whatever its value, the
    only call is the creation of a multipart upload for exactly that key. *)
Theorem start_upload_key_presence
        (g : gateway) (req : Request) (env : Env)
        (S : Type) (respond : forall R : Type, S -> store_op R -> reply R * S)
        (s : S) :
  admitted g req env = true ->
  addresses g StartUpload req = true ->
  bucket_bound env = true ->
  match searchParams_get req "key" with
  | None =>
      (exists resp, answered respond (serve g req env) s = Some resp
                    /\ status resp = 400%N)
      /\ calls respond (serve g req env) s = []
  | Some key =>
      calls respond (serve g req env) s = [CallOf (CreateMultipartUpload key)]
  end.
Proof.
  intros Hadm Haddr Hbucket.
  unfold bucket_bound in Hbucket.
  destruct (BUCKET env) as [bk|] eqn:Hbk; [|discriminate].
  destruct g.
  - enter_flat Hadm Haddr Hm.
    unfold Worker.start_upload, Worker.getUrlParam, on_bucket.
    rewrite (checkMethod_passes req Hm), Hbk.
    destruct (searchParams_get req "key") as [key|]; simpl.
    + rewrite calls_Call.
      destruct (fst (respond R2MultipartUpload s (CreateMultipartUpload key)));
        reflexivity.
    + split; [eexists; split; reflexivity | reflexivity].
  - enter_nested Hadm Haddr Hr.
    unfold HonoApp.uploads_create, HonoApp.getQueryString,
      HonoApp.req_query, on_bucket; cbn [HonoApp.ctx_req HonoApp.ctx_env].
    rewrite Hb.
    destruct (searchParams_get req "key") as [key|]; simpl.
    + rewrite calls_Call.
      destruct (fst (respond R2MultipartUpload s (CreateMultipartUpload key)));
        reflexivity.
    + split; [eexists; split; reflexivity | reflexivity].
Qed.

Lemma start_upload_key_presence_witness :
  let req := Samples.request "POST" "/start-upload" [("key", "a.txt")]
               Samples.credential None None in
  calls MemStore.respond (serve Flat req Samples.env) MemStore.empty
  = [CallOf (CreateMultipartUpload "a.txt")].
Proof.
  exact (@start_upload_key_presence Flat
           (Samples.request "POST" "/start-upload" [("key", "a.txt")]
              Samples.credential None None)
           Samples.env _ MemStore.respond MemStore.empty
           eq_refl eq_refl eq_refl).
Defined.

(** C6, as stated, fails on a part number that is a number but no integer:
    the body [[{"partNumber": 1.5, "etag": "E1"}]] is not an array of parts
    with integer part numbers, yet it passes the validation, the backing
    store is asked to complete the upload with it, and the answer is 200. *)
Lemma complete_upload_fractional_part_number :
  let items := [Samples.part (Finite false 3 1) "E1"] in
  let req := Samples.request "POST" "/complete-upload"
               [("key", "a.txt"); ("uploadId", "u1")]
               Samples.credential (Some "...") (Some (JArr items)) in
  let store := Samples.session [(Finite false 3 1, "hello")] in
  forallb integer_part items = false
  /\ answered MemStore.respond (serve Flat req Samples.env) store
     = Some (Response_json (JObj [("key", JStr "a.txt")]) 200)
  /\ calls MemStore.respond (serve Flat req Samples.env) store
     = [CallOf (ResumeMultipartUpload "a.txt" "u1");
        CallOf (Complete {| mpu_key := "a.txt"; mpu_uploadId := "u1" |} items)]
  /\ calls MemStore.respond (serve Flat req Samples.env) store <> [].
Proof. repeat split; discriminate. Qed.

(** C6, amended: a complete-upload request (with [key] and [uploadId]) is
    answered 400 with no call to the backing store
    - with message "Invalid parts" when the parsed body is not an array, or
      is an array without [null] elements in which some element is not an
      object with a number [partNumber] (integer or not) and a string
      [etag];
    - with message "No parts" when the parsed body is the empty array. *)
Theorem complete_upload_rejects_ill_typed_parts
        (g : gateway) (req : Request) (env : Env)
        (S : Type) (respond : forall R : Type, S -> store_op R -> reply R * S)
        (s : S) (key uploadId : string) (v : json) :
  admitted g req env = true ->
  addresses g CompleteUpload req = true ->
  searchParams_get req "key" = Some key ->
  searchParams_get req "uploadId" = Some uploadId ->
  req_json req = Some v ->
  match v with
  | JArr [] =>
      answered respond (serve g req env) s
      = Some (Response_json (error_object "No parts") 400)
      /\ calls respond (serve g req env) s = []
  | JArr items =>
      existsb is_null items = false ->
      forallb well_typed_part items = false ->
      answered respond (serve g req env) s
      = Some (Response_json (error_object "Invalid parts") 400)
      /\ calls respond (serve g req env) s = []
  | _ =>
      answered respond (serve g req env) s
      = Some (Response_json (error_object "Invalid parts") 400)
      /\ calls respond (serve g req env) s = []
  end.
Proof.
  intros Hadm Haddr Hkey Hid Hjson. destruct g.
  - enter_flat Hadm Haddr Hm.
    unfold Worker.complete_upload, Worker.getUrlParam, request_json.
    rewrite (checkMethod_passes req Hm), Hkey, Hid, Hjson.
    destruct v as [|bl|n|str|items|props]; try (split; reflexivity).
    destruct items as [|x rest]; [split; reflexivity|].
    intros Hnull Hbad.
    cbn [bind].
    rewrite (every_valid_rejects (x :: rest) Hnull Hbad).
    split; reflexivity.
  - enter_nested Hadm Haddr Hr.
    unfold HonoApp.uploads_complete, HonoApp.getQueryString,
      HonoApp.req_query, request_json; cbn [HonoApp.ctx_req].
    rewrite Hkey, Hid, Hjson.
    destruct v as [|bl|n|str|items|props]; try (split; reflexivity).
    destruct items as [|x rest]; [split; reflexivity|].
    intros Hnull Hbad.
    cbn [bind].
    rewrite (every_valid_rejects (x :: rest) Hnull Hbad).
    split; reflexivity.
Qed.

(** The scenario of the interface description: the body
    [[{"partNumber": "x", "etag": "E1"}]] is answered 400
    [{"error": "Invalid parts"}]. *)
Lemma complete_upload_rejects_ill_typed_parts_witness :
  let items := [JObj [("partNumber", JStr "x"); ("etag", JStr "E1")]] in
  let req := Samples.request "POST" "/complete-upload"
               [("key", "a.txt"); ("uploadId", "u1")]
               Samples.credential (Some "...") (Some (JArr items)) in
  answered MemStore.respond (serve Flat req Samples.env) MemStore.empty
  = Some (Response_json (error_object "Invalid parts") 400)
  /\ calls MemStore.respond (serve Flat req Samples.env) MemStore.empty = [].
Proof.
  exact (@complete_upload_rejects_ill_typed_parts Flat
           (Samples.request "POST" "/complete-upload"
              [("key", "a.txt"); ("uploadId", "u1")]
              Samples.credential (Some "...")
              (Some (JArr [JObj [("partNumber", JStr "x");
                                 ("etag", JStr "E1")]])))
           Samples.env _ MemStore.respond MemStore.empty "a.txt" "u1" _
           eq_refl eq_refl eq_refl eq_refl eq_refl eq_refl eq_refl).
Defined.

(** A [null] element met before any ill-typed one makes the callback of
    [every] throw: the request is answered 500, not 400. *)
Example complete_upload_null_part :
  let flat := Samples.request "POST" "/complete-upload"
                [("key", "a.txt"); ("uploadId", "u1")]
                Samples.credential (Some "...") (Some (JArr [JNull])) in
  let nested := Samples.request "POST" "/uploads/complete"
                  [("key", "a.txt"); ("uploadId", "u1")]
                  [] (Some "...") (Some (JArr [JNull])) in
  answered MemStore.respond (serve Flat flat Samples.env) MemStore.empty
  = Some (Response_json (error_object "Internal server error") 500)
  /\ answered MemStore.respond (serve Nested nested Samples.env) MemStore.empty
     = Some (Response_json (error_object "Internal Server Error") 500).
Proof. split; reflexivity. Qed.

(** C9: a parts array accepted by the validation of complete-upload is
    handed to the backing store's complete call as it is: the same elements
    in the same order, on the session resumed for the request's key and
    upload id.  Nothing sorts, deduplicates or range-checks it. *)
Theorem complete_upload_forwards_parts
        (g : gateway) (req : Request) (env : Env)
        (S : Type) (respond : forall R : Type, S -> store_op R -> reply R * S)
        (s : S) (key uploadId : string) (items : list json) :
  admitted g req env = true ->
  addresses g CompleteUpload req = true ->
  bucket_bound env = true ->
  searchParams_get req "key" = Some key ->
  searchParams_get req "uploadId" = Some uploadId ->
  req_json req = Some (JArr items) ->
  every part_is_valid items = Ret true ->
  items <> [] ->
  calls respond (serve g req env) s
  = CallOf (ResumeMultipartUpload key uploadId)
      :: match fst (respond _ s (ResumeMultipartUpload key uploadId)) with
         | Returns mpu => [CallOf (Complete mpu items)]
         | Rejects _ _ => []
         end.
Proof.
  intros Hadm Haddr Hbucket Hkey Hid Hjson Hvalid Hne.
  unfold bucket_bound in Hbucket.
  destruct (BUCKET env) as [bk|] eqn:Hbk; [|discriminate].
  assert (Hlen : Nat.eqb (length items) 0 = false)
    by (destruct items; [contradiction Hne; reflexivity | reflexivity]).
  destruct g.
  - enter_flat Hadm Haddr Hm.
    unfold Worker.complete_upload, Worker.getUrlParam, request_json,
      on_bucket, on_mpu.
    rewrite (checkMethod_passes req Hm), Hkey, Hid, Hjson, Hbk.
    cbn [bind]. rewrite Hvalid. cbn [bind negb]. rewrite Hlen.
    cbn [bind try_catch]. rewrite calls_Call. f_equal.
    destruct (fst (respond _ s (ResumeMultipartUpload key uploadId)))
      as [mpu|n m]; cbn [await bind try_catch]; [|reflexivity].
    rewrite calls_Call. f_equal.
    destruct (fst (respond _ _ (Complete mpu items))); reflexivity.
  - enter_nested Hadm Haddr Hr.
    unfold HonoApp.uploads_complete, HonoApp.getQueryString,
      HonoApp.req_query, request_json, on_bucket, on_mpu;
      cbn [HonoApp.ctx_req HonoApp.ctx_env].
    rewrite Hkey, Hid, Hjson, Hb.
    cbn [bind]. rewrite Hvalid. cbn [bind negb]. rewrite Hlen.
    cbn [bind try_catch]. rewrite calls_Call. f_equal.
    destruct (fst (respond _ s (ResumeMultipartUpload key uploadId)))
      as [mpu|n m]; cbn [await bind try_catch]; [|reflexivity].
    rewrite calls_Call. f_equal.
    destruct (fst (respond _ _ (Complete mpu items))); reflexivity.
Qed.

(** A list with repeated, zero, negative and out-of-order part numbers goes
    through unchanged. *)
Lemma complete_upload_forwards_parts_witness :
  let req := Samples.request "POST" "/uploads/complete"
               [("key", "a.txt"); ("uploadId", "u1")] []
               (Some "...") (Some (JArr unordered_parts)) in
  calls MemStore.respond (serve Nested req Samples.env) MemStore.empty
  = [CallOf (ResumeMultipartUpload "a.txt" "u1");
     CallOf (Complete {| mpu_key := "a.txt"; mpu_uploadId := "u1" |}
               unordered_parts)].
Proof.
  refine (@complete_upload_forwards_parts Nested
            (Samples.request "POST" "/uploads/complete"
               [("key", "a.txt"); ("uploadId", "u1")] []
               (Some "...") (Some (JArr unordered_parts)))
            Samples.env _ MemStore.respond MemStore.empty "a.txt" "u1"
            unordered_parts
            eq_refl eq_refl eq_refl eq_refl eq_refl eq_refl eq_refl _).
  discriminate.
Defined.

(* ================================================================= *)
(** ** Upload part: the part number *)

(** An upload-part request whose [partNumber] parameter is absent or
    does not parse ([parseInt(value, 10)] is [NaN]) is answered with status
    400 and nothing is called; otherwise (body, [key] and [uploadId] being
    there) the number [parseInt] returned is the part number of the
    upload-part call made on the resumed session. *)
Theorem upload_part_number_parsed
        (g : gateway) (req : Request) (env : Env)
        (S : Type) (respond : forall R : Type, S -> store_op R -> reply R * S)
        (s : S) :
  admitted g req env = true ->
  addresses g UploadPartOp req = true ->
  (part_number_unparsable req = true ->
   (exists resp, answered respond (serve g req env) s = Some resp
                 /\ status resp = 400%N)
   /\ calls respond (serve g req env) s = [])
  /\
  (forall key uploadId value body,
      bucket_bound env = true ->
      req_body req = Some body ->
      searchParams_get req "key" = Some key ->
      searchParams_get req "uploadId" = Some uploadId ->
      searchParams_get req "partNumber" = Some value ->
      isNaN (parseInt value) = false ->
      calls respond (serve g req env) s
      = CallOf (ResumeMultipartUpload key uploadId)
          :: match fst (respond _ s (ResumeMultipartUpload key uploadId)) with
             | Returns mpu => [CallOf (UploadPart mpu (parseInt value) body)]
             | Rejects _ _ => []
             end).
Proof.
  intros Hadm Haddr. destruct g.
  - enter_flat Hadm Haddr Hm.
    unfold Worker.upload_part, Worker.getUrlParamNumber, Worker.getUrlParam,
      part_number_unparsable.
    rewrite (checkMethod_passes req Hm). split.
    + intros Hbad.
      destruct (req_body req);
        destruct (searchParams_get req "key");
        destruct (searchParams_get req "uploadId");
        destruct (searchParams_get req "partNumber");
        cbn [bind try_catch]; try rewrite Hbad;
        (split; [eexists; split; reflexivity | reflexivity]).
    + intros key uploadId value body Hbucket Hbody Hkey Hid Hpn Hnum.
      unfold bucket_bound in Hbucket. unfold on_bucket, on_mpu.
      destruct (BUCKET env); [|discriminate].
      rewrite Hbody, Hkey, Hid, Hpn. cbn [bind]. rewrite Hnum.
      cbn [bind try_catch]. rewrite calls_Call. f_equal.
      destruct (fst (respond _ s (ResumeMultipartUpload key uploadId)))
        as [mpu|n m]; cbn [await bind try_catch]; [|reflexivity].
      rewrite calls_Call. f_equal.
      destruct (fst (respond _ _ (UploadPart mpu (parseInt value) body)));
        reflexivity.
  - enter_nested Hadm Haddr Hr.
    unfold HonoApp.uploads_upload_part, HonoApp.getQueryNumber,
      HonoApp.getQueryString, HonoApp.req_query, part_number_unparsable;
      cbn [HonoApp.ctx_req HonoApp.ctx_env].
    split.
    + intros Hbad.
      destruct (req_body req);
        destruct (searchParams_get req "key");
        destruct (searchParams_get req "uploadId");
        destruct (searchParams_get req "partNumber");
        cbn [bind try_catch]; try rewrite Hbad;
        (split; [eexists; split; reflexivity | reflexivity]).
    + intros key uploadId value body Hbucket Hbody Hkey Hid Hpn Hnum.
      unfold on_bucket, on_mpu.
      rewrite Hb, Hbody, Hkey, Hid, Hpn. cbn [bind]. rewrite Hnum.
      cbn [bind try_catch]. rewrite calls_Call. f_equal.
      destruct (fst (respond _ s (ResumeMultipartUpload key uploadId)))
        as [mpu|n m]; cbn [await bind try_catch]; [|reflexivity].
      rewrite calls_Call. f_equal.
      destruct (fst (respond _ _ (UploadPart mpu (parseInt value) body)));
        reflexivity.
Qed.

Lemma upload_part_number_parsed_witness :
  let bad := Samples.request "POST" "/upload-part"
               [("key", "a.txt"); ("uploadId", "u1"); ("partNumber", "x")]
               Samples.credential (Some "hello") None in
  let good := Samples.request "POST" "/upload-part"
                [("key", "a.txt"); ("uploadId", "u1"); ("partNumber", "7")]
                Samples.credential (Some "hello") None in
  ((exists resp,
       answered MemStore.respond (serve Flat bad Samples.env) MemStore.empty
       = Some resp /\ status resp = 400%N)
   /\ calls MemStore.respond (serve Flat bad Samples.env) MemStore.empty = [])
  /\ calls MemStore.respond (serve Flat good Samples.env) MemStore.empty
     = [CallOf (ResumeMultipartUpload "a.txt" "u1");
        CallOf (UploadPart {| mpu_key := "a.txt"; mpu_uploadId := "u1" |}
                  (number_of_N 7) "hello")].
Proof.
  split.
  - apply (@upload_part_number_parsed Flat
             (Samples.request "POST" "/upload-part"
                [("key", "a.txt"); ("uploadId", "u1"); ("partNumber", "x")]
                Samples.credential (Some "hello") None)
             Samples.env _ MemStore.respond MemStore.empty
             eq_refl eq_refl).
    reflexivity.
  - exact (proj2 (@upload_part_number_parsed Flat
             (Samples.request "POST" "/upload-part"
                [("key", "a.txt"); ("uploadId", "u1"); ("partNumber", "7")]
                Samples.credential (Some "hello") None)
             Samples.env _ MemStore.respond MemStore.empty
             eq_refl eq_refl)
             "a.txt" "u1" "7" "hello"
             eq_refl eq_refl eq_refl eq_refl eq_refl eq_refl).
Defined.

(* ================================================================= *)
(** ** What [parseInt] reads *)

Lemma append_assoc (a b c : string) :
  String.append (String.append a b) c = String.append a (String.append b c).
Proof. induction a as [|x a IH]; simpl; [reflexivity|]. rewrite IH; reflexivity. Qed.

Lemma strip_prefix_length (p s s' : string) :
  strip_prefix p s = Some s' ->
  String.length s = String.length p + String.length s'.
Proof.
  revert s; induction p as [|a p IH]; intros s H; simpl in *.
  - injection H as ->; reflexivity.
  - destruct s as [|b s]; [discriminate|].
    destruct (Ascii.eqb a b); [|discriminate].
    simpl; rewrite (IH _ H); reflexivity.
Qed.

Lemma strip_prefix_append (p s : string) : strip_prefix p (p ++ s) = Some s.
Proof.
  induction p as [|a p IH]; simpl; [reflexivity|].
  rewrite Ascii.eqb_refl; exact IH.
Qed.

Lemma strip_any_none (ps : list string) (s : string) :
  no_prefix ps s -> strip_any ps s = None.
Proof.
  induction 1 as [|p ps Hp _ IH]; simpl; [reflexivity|].
  rewrite Hp; exact IH.
Qed.

Lemma strip_white_space_shorter (s s' : string) :
  strip_any white_space s = Some s' -> String.length s' < String.length s.
Proof.
  assert (H : forall ps,
             Forall (fun p => 0 < String.length p) ps ->
             strip_any ps s = Some s' -> String.length s' < String.length s).
  { induction 1 as [|p ps Hp _ IH]; simpl; [discriminate|].
    destruct (strip_prefix p s) as [t|] eqn:Hs; [|exact IH].
    intros E; injection E as ->.
    apply strip_prefix_length in Hs; lia. }
  apply H.
  repeat constructor.
Qed.

Lemma strip_white_space_char (w s : string) :
  In w white_space -> strip_any white_space (w ++ s) = Some s.
Proof.
  intros H; simpl in H.
  repeat (destruct H as [<-|H]; [reflexivity|]).
  contradiction.
Qed.

Lemma trim_start_fuel_enough (n m : nat) :
  forall s,
    String.length s <= n -> String.length s <= m ->
    trim_start_fuel n s = trim_start_fuel m s.
Proof.
  revert m; induction n as [|n IH]; intros m s Hn Hm.
  - destruct s; [|simpl in Hn; lia].
    destruct m; reflexivity.
  - destruct m as [|m].
    + destruct s; [reflexivity|simpl in Hm; lia].
    + cbn [trim_start_fuel].
      destruct (strip_any white_space s) as [s'|] eqn:Hs; [|reflexivity].
      apply strip_white_space_shorter in Hs.
      apply IH; lia.
Qed.

Lemma trim_start_white_space (wss : list string) (t : string) :
  Forall (fun w => In w white_space) wss ->
  trim_start (String.concat "" wss ++ t) = trim_start t.
Proof.
  assert (Hone : forall w s, In w white_space ->
                             trim_start (w ++ s) = trim_start s).
  { intros w s Hw. unfold trim_start.
    assert (Hlen : 0 < String.length (w ++ s)).
    { pose proof (strip_white_space_char s Hw) as Hs.
      apply strip_white_space_shorter in Hs; lia. }
    destruct (String.length (w ++ s)) as [|n] eqn:Hn; [lia|].
    cbn [trim_start_fuel]. rewrite (strip_white_space_char s Hw).
    pose proof (strip_white_space_char s Hw) as Hs.
    apply strip_white_space_shorter in Hs.
    apply trim_start_fuel_enough; lia. }
  assert (Hcat : forall ws u, String.append (String.concat "" ws) u
                              = fold_right String.append u ws).
  { induction ws as [|w [|w' ws] IH]; intros u.
    - reflexivity.
    - simpl. reflexivity.
    - change (String.concat "" (w :: w' :: ws))
        with (String.append w
                (String.append "" (String.concat "" (w' :: ws)))).
      change (fold_right String.append u (w :: w' :: ws))
        with (String.append w (fold_right String.append u (w' :: ws))).
      rewrite <- IH. cbn [String.append].
      rewrite append_assoc. reflexivity. }
  intros H. rewrite Hcat.
  induction H as [|w ws Hw _ IH]; [reflexivity|].
  cbn [fold_right]. rewrite (Hone _ _ Hw). exact IH.
Qed.

Lemma trim_start_nothing (t : string) :
  strip_any white_space t = None -> trim_start t = t.
Proof.
  intros H; unfold trim_start.
  destruct (String.length t); cbn [trim_start_fuel]; [reflexivity|].
  rewrite H; reflexivity.
Qed.

Lemma digit_cases (d : N) :
  (d < 10)%N ->
  d = 0%N \/ d = 1%N \/ d = 2%N \/ d = 3%N \/ d = 4%N \/ d = 5%N
  \/ d = 6%N \/ d = 7%N \/ d = 8%N \/ d = 9%N.
Proof. lia. Qed.

Ltac each_digit H :=
  apply digit_cases in H;
  repeat (destruct H as [->|H]); [..|subst].

Lemma digit_value_written (d : N) :
  (d < 10)%N -> digit_value (ascii_of_N (48 + d)) = Some d.
Proof. intros H; each_digit H; reflexivity. Qed.

Lemma leading_digits_stop (rest : string) (acc : option N) :
  starts_with_digit rest = false -> leading_digits rest acc = acc.
Proof.
  destruct rest as [|c rest]; [reflexivity|].
  unfold starts_with_digit, is_digit, between; simpl; unfold digit_value.
  intros ->; reflexivity.
Qed.

Lemma leading_digits_written (ds : list N) (rest : string) :
  Forall (fun d => (d < 10)%N) ds ->
  starts_with_digit rest = false ->
  forall a,
    leading_digits (digits_string ds ++ rest) (Some a)
    = Some (a * 10 ^ N.of_nat (length ds) + decimal_value ds)%N.
Proof.
  intros Hds Hrest; induction Hds as [|d ds Hd _ IH]; intros a.
  - simpl. rewrite (@leading_digits_stop _ _ Hrest). f_equal; lia.
  - unfold digits_string; cbn [map bytes fold_right append leading_digits].
    rewrite (@digit_value_written d Hd).
    fold (bytes (map (N.add 48) ds)); fold (digits_string ds).
    rewrite IH. f_equal.
    cbn [length decimal_value].
    rewrite Nat2N.inj_succ, N.pow_succ_r'. lia.
Qed.

Lemma leading_digits_first (ds : list N) (rest : string) :
  ds <> [] ->
  Forall (fun d => (d < 10)%N) ds ->
  starts_with_digit rest = false ->
  leading_digits (digits_string ds ++ rest) None = Some (decimal_value ds).
Proof.
  intros Hne Hds Hrest.
  destruct ds as [|d ds]; [contradiction Hne; reflexivity|].
  inversion Hds as [|? ? Hd Hds']; subst.
  unfold digits_string; cbn [map bytes fold_right append leading_digits].
  rewrite (@digit_value_written d Hd).
  fold (bytes (map (N.add 48) ds)); fold (digits_string ds).
  rewrite (@leading_digits_written ds rest Hds' Hrest). reflexivity.
Qed.

Lemma digits_no_white_space (d : N) (t : string) :
  (d < 10)%N ->
  strip_any white_space (String (ascii_of_N (48 + d)) t) = None.
Proof. intros H; each_digit H; reflexivity. Qed.

Lemma digits_unsigned (d : N) (t : string) :
  (d < 10)%N -> no_prefix ["+"; "-"] (String (ascii_of_N (48 + d)) t).
Proof. intros H; each_digit H; repeat constructor. Qed.

(** The sign test of [parseInt] on a string that starts with neither sign. *)
Lemma unsigned_head (s : string) :
  no_prefix ["+"; "-"] s ->
  match s with
  | String "-" t => (true, t)
  | String "+" t => (false, t)
  | _ => (false, s)
  end = (false, s).
Proof.
  intros H.
  inversion H as [|? ? Hplus H']; subst.
  inversion H' as [|? ? Hminus _]; subst.
  destruct s as [|c t]; [reflexivity|].
  simpl in Hplus, Hminus.
  destruct c as [[] [] [] [] [] [] [] []];
    try reflexivity; discriminate.
Qed.

(** [parseInt] reads what [prefix_reading] describes: nothing gives [NaN], a
    run of digits the integer it denotes in base 10, with the sign, as a
    double. *)
Lemma parseInt_reads (s : string) (r : option (bool * N)) :
  prefix_reading s r ->
  parseInt s = match r with
               | Some (neg, m) => round_to_double neg m
               | None => NaN
               end.
Proof.
  intros H; destruct H as [wss sign ds rest Hws Hsign Hne Hds Hrest
                          |wss sign rest Hws Hsign Hrest
                          |wss rest Hws Hnone Hrest];
    unfold parseInt; rewrite (@trim_start_white_space wss _ Hws).
  - destruct ds as [|d ds]; [contradiction Hne; reflexivity|].
    assert (Hd : (d < 10)%N) by (inversion Hds; assumption).
    pose proof (@leading_digits_first (d :: ds) rest Hne Hds Hrest) as Hlead.
    simpl in Hsign.
    destruct Hsign as [<-|[<-|[<-|[]]]]; cbn [append String.eqb Ascii.eqb].
    + rewrite trim_start_nothing
        by (unfold digits_string; cbn [map bytes fold_right append];
            apply digits_no_white_space; exact Hd).
      rewrite unsigned_head
        by (unfold digits_string; cbn [map bytes fold_right append];
            apply digits_unsigned; exact Hd).
      rewrite Hlead; reflexivity.
    + rewrite trim_start_nothing by reflexivity.
      rewrite Hlead; reflexivity.
    + rewrite trim_start_nothing by reflexivity.
      rewrite Hlead; reflexivity.
  - simpl in Hsign.
    destruct Hsign as [<-|[<-|[]]]; cbn [append];
      rewrite trim_start_nothing by reflexivity;
      rewrite (@leading_digits_stop _ _ Hrest); reflexivity.
  - unfold no_prefix in Hnone; apply Forall_app in Hnone.
    destruct Hnone as [Hw Hs].
    rewrite (@trim_start_nothing rest (@strip_any_none _ _ Hw)).
    rewrite (@unsigned_head rest Hs).
    rewrite (@leading_digits_stop _ _ Hrest); reflexivity.
Qed.

Lemma round_to_double_exact (neg : bool) (m : N) :
  (m < 2 ^ 53)%N -> round_to_double neg m = Finite neg m 0.
Proof.
  intros H; unfold round_to_double.
  apply N.ltb_lt in H; rewrite H; reflexivity.
Qed.

Lemma round_to_double_not_NaN (neg : bool) (m : N) :
  isNaN (round_to_double neg m) = false.
Proof.
  unfold round_to_double.
  destruct (N.ltb m (2 ^ 53)); [reflexivity|].
  cbv zeta. destruct (N.leb (2 ^ 1024) _); reflexivity.
Qed.

(** C7, as stated, fails on a [partNumber] that starts like an integer but
    is none: for [12abc] the gateway forwards 12, for [1.5] it forwards 1,
    and answers 200 instead of 400. *)
Lemma upload_part_lenient_number :
  let req value :=
    Samples.request "POST" "/upload-part"
      [("key", "a.txt"); ("uploadId", "u1"); ("partNumber", value)]
      Samples.credential (Some "hello") None in
  let forwarded n :=
    [CallOf (ResumeMultipartUpload "a.txt" "u1");
     CallOf (UploadPart {| mpu_key := "a.txt"; mpu_uploadId := "u1" |}
               (number_of_N n) "hello")] in
  let taken n :=
    Some (Response_json
            (JObj [("partNumber", JNum (number_of_N n));
                   ("etag", JStr "etag:hello")]) 200) in
  is_decimal_integer "12abc" = false
  /\ calls MemStore.respond (serve Flat (req "12abc") Samples.env)
       MemStore.empty = forwarded 12%N
  /\ answered MemStore.respond (serve Flat (req "12abc") Samples.env)
       MemStore.empty = taken 12%N
  /\ is_decimal_integer "1.5" = false
  /\ calls MemStore.respond (serve Flat (req "1.5") Samples.env)
       MemStore.empty = forwarded 1%N
  /\ answered MemStore.respond (serve Flat (req "1.5") Samples.env)
       MemStore.empty = taken 1%N.
Proof. repeat split. Qed.

(** C7, amended: the [partNumber] query parameter is read the way
    [parseInt(value, 10)] reads: leading white space is skipped, a sign is
    accepted, then the longest run of decimal digits is taken and whatever
    follows it is ignored.  If the parameter is absent, or no digit stands
    there, the gateway answers 400 and calls nothing.  Otherwise the integer
    the digits denote in base 10, with the sign, converted to a double
    (exact below 2^53, the nearest double beyond), is the part number of the
    upload-part call made on the resumed session. *)
Theorem upload_part_number_read
        (g : gateway) (req : Request) (env : Env)
        (S : Type) (respond : forall R : Type, S -> store_op R -> reply R * S)
        (s : S) :
  admitted g req env = true ->
  addresses g UploadPartOp req = true ->
  match searchParams_get req "partNumber" with
  | None =>
      (exists resp, answered respond (serve g req env) s = Some resp
                    /\ status resp = 400%N)
      /\ calls respond (serve g req env) s = []
  | Some value =>
      forall reading,
        prefix_reading value reading ->
        match reading with
        | None =>
            (exists resp, answered respond (serve g req env) s = Some resp
                          /\ status resp = 400%N)
            /\ calls respond (serve g req env) s = []
        | Some (neg, m) =>
            ((m < 2 ^ 53)%N -> round_to_double neg m = Finite neg m 0)
            /\ forall key uploadId body,
                bucket_bound env = true ->
                req_body req = Some body ->
                searchParams_get req "key" = Some key ->
                searchParams_get req "uploadId" = Some uploadId ->
                calls respond (serve g req env) s
                = CallOf (ResumeMultipartUpload key uploadId)
                    :: match fst (respond _ s
                                    (ResumeMultipartUpload key uploadId)) with
                       | Returns mpu =>
                           [CallOf (UploadPart mpu (round_to_double neg m)
                                      body)]
                       | Rejects _ _ => []
                       end
        end
  end.
Proof.
  intros Hadm Haddr.
  destruct (upload_part_number_parsed g req env respond s Hadm Haddr)
    as [Hbad Hgood].
  unfold part_number_unparsable in Hbad.
  destruct (searchParams_get req "partNumber") as [value|] eqn:Hpn;
    [|exact (Hbad eq_refl)].
  intros reading Hread.
  pose proof (parseInt_reads Hread) as Hparse.
  destruct reading as [[neg m]|].
  - split; [apply round_to_double_exact|].
    intros key uploadId body Hbucket Hbody Hkey Hid.
    rewrite <- Hparse.
    apply Hgood; auto.
    rewrite Hparse; apply round_to_double_not_NaN.
  - apply Hbad. rewrite Hparse; reflexivity.
Qed.

Lemma upload_part_number_read_witness :
  let req value :=
    Samples.request "POST" "/uploads/upload-part"
      [("key", "a.txt"); ("uploadId", "u1"); ("partNumber", value)]
      [] (Some "hello") None in
  calls MemStore.respond (serve Nested (req " -120abc") Samples.env)
    MemStore.empty
  = [CallOf (ResumeMultipartUpload "a.txt" "u1");
     CallOf (UploadPart {| mpu_key := "a.txt"; mpu_uploadId := "u1" |}
               (Finite true 120 0) "hello")]
  /\ ((exists resp,
          answered MemStore.respond (serve Nested (req "+x1") Samples.env)
            MemStore.empty = Some resp
          /\ status resp = 400%N)
      /\ calls MemStore.respond (serve Nested (req "+x1") Samples.env)
           MemStore.empty = []).
Proof.
  split.
  - refine (proj2
              (@upload_part_number_read Nested
                 (Samples.request "POST" "/uploads/upload-part"
                    [("key", "a.txt"); ("uploadId", "u1");
                     ("partNumber", " -120abc")]
                    [] (Some "hello") None)
                 Samples.env _ MemStore.respond MemStore.empty
                 eq_refl eq_refl
                 (Some (true, 120%N))
                 (@reads_number [" "] "-" [1; 2; 0]%N "abc" _ _ _ _ eq_refl))
              "a.txt" "u1" "hello" eq_refl eq_refl eq_refl eq_refl).
    + apply Forall_cons; [|apply Forall_nil].
      do 5 right; left; reflexivity.
    + do 2 right; left; reflexivity.
    + discriminate.
    + repeat constructor.
  - refine (@upload_part_number_read Nested
              (Samples.request "POST" "/uploads/upload-part"
                 [("key", "a.txt"); ("uploadId", "u1");
                  ("partNumber", "+x1")]
                 [] (Some "hello") None)
              Samples.env _ MemStore.respond MemStore.empty
              eq_refl eq_refl
              None
              (@reads_nothing_signed [] "+" "x1" _ _ eq_refl)).
    + constructor.
    + left; reflexivity.
Defined.

(* ================================================================= *)
(** ** The shape of error responses *)

(** C5, at requests where the flat worker answers an error in plain text:
    [POST /start-upload] without [key] gets 400 with the text
    "Invalid or missing key", a [GET] on the same path 405 with the text
    "Method not allowed"; neither body is JSON.  The Hono application
    answers the request without [key] with 400 [{"error": "Missing key"}]. *)
Theorem flat_parameter_errors_plain_text :
  let post := Samples.request "POST" "/start-upload" []
                Samples.credential None None in
  let get := Samples.request "GET" "/start-upload" [("key", "a.txt")]
               Samples.credential None None in
  let nested := Samples.request "POST" "/uploads/create" [] [] None None in
  answered MemStore.respond (serve Flat post Samples.env) MemStore.empty
  = Some (Response_text "Invalid or missing key" 400)
  /\ answered MemStore.respond (serve Flat get Samples.env) MemStore.empty
     = Some (Response_text "Method not allowed" 405)
  /\ is_structured_error (Response_text "Invalid or missing key" 400) = false
  /\ is_structured_error (Response_text "Method not allowed" 405) = false
  /\ answered MemStore.respond (serve Nested nested Samples.env) MemStore.empty
     = Some (Response_json (error_object "Missing key") 400).
Proof. repeat split. Qed.

(** On the Hono application a start-upload request without [key] is always
    answered 400 [{"error": "Missing key"}]. *)
Lemma nested_missing_key
      (req : Request) (env : Env)
      (S : Type) (respond : forall R : Type, S -> store_op R -> reply R * S)
      (s : S) :
  admitted Nested req env = true ->
  addresses Nested StartUpload req = true ->
  searchParams_get req "key" = None ->
  answered respond (serve Nested req env) s
  = Some (Response_json (error_object "Missing key") 400).
Proof.
  intros Hadm Haddr Hkey.
  enter_nested Hadm Haddr Hr.
  unfold HonoApp.uploads_create, HonoApp.getQueryString, HonoApp.req_query;
    cbn [HonoApp.ctx_req].
  rewrite Hkey; reflexivity.
Qed.

(** What one dispatch answers when a route matches. *)
Lemma dispatch_answers
      (req : Request) (env : Env) (method : string)
      (rt : HonoApp.route) (params : list (string * string))
      (S : Type) (respond : forall R : Type, S -> store_op R -> reply R * S)
      (s : S) :
  HonoApp.match_route method (HonoApp.getPath req) = Some (rt, params) ->
  exists sv,
    outcome respond (HonoApp.dispatch req env method) s = Returned sv
    /\ orb (is_success (response sv))
         (is_json_error [400; 404; 500]%N (response sv)) = true.
Proof.
  intros Hr.
  unfold HonoApp.dispatch, HonoApp.middleware; rewrite Hr.
  cbn [HonoApp.ctx_env HonoApp.ctx_req].
  destruct (BUCKET env) as [bk|] eqn:Hbk;
    [|eexists; split; reflexivity].
  destruct (AUTH_KEY env) as [ak|];
    [|eexists; split; reflexivity].
  destruct rt; cbn [HonoApp.handler];
    unfold HonoApp.uploads_create, HonoApp.uploads_upload_part,
      HonoApp.uploads_complete, HonoApp.objects_list, HonoApp.objects_get,
      HonoApp.objects_stats, HonoApp.objects_delete,
      HonoApp.getQueryNumber, HonoApp.getQueryString, HonoApp.getPathString,
      HonoApp.req_query, HonoApp.req_param, request_json, on_bucket, on_mpu;
    cbn [HonoApp.ctx_env HonoApp.ctx_req HonoApp.ctx_params];
    rewrite ?Hbk.
  - (* create *)
    destruct (searchParams_get req "key"); cbn [bind try_catch];
      [rewrite outcome_Call; destruct (fst (respond _ _ _))|];
      eexists; split; reflexivity.
  - (* upload part *)
    destruct (req_body req);
      destruct (searchParams_get req "key");
      destruct (searchParams_get req "uploadId");
      destruct (searchParams_get req "partNumber") as [value|];
      cbn [bind try_catch];
      try (eexists; split; reflexivity).
    destruct (isNaN (parseInt value)); cbn [bind try_catch];
      [eexists; split; reflexivity|].
    rewrite outcome_Call; destruct (fst (respond _ _ _));
      cbn [await bind try_catch]; [|eexists; split; reflexivity].
    rewrite outcome_Call; destruct (fst (respond _ _ _));
      eexists; split; reflexivity.
  - (* complete *)
    destruct (searchParams_get req "key");
      destruct (searchParams_get req "uploadId");
      destruct (req_json req) as [v|];
      cbn [bind try_catch];
      try (eexists; split; reflexivity).
    destruct v as [|bl|n|str|items|props];
      try (eexists; split; reflexivity).
    destruct (every_valid_cases items) as [[ok Hev]|[e Hev]];
      rewrite Hev; cbn [bind try_catch];
      [|eexists; split; reflexivity].
    destruct ok; cbn [negb]; [|eexists; split; reflexivity].
    destruct (Nat.eqb (length items) 0); cbn [bind try_catch];
      [eexists; split; reflexivity|].
    rewrite outcome_Call; destruct (fst (respond _ _ _));
      cbn [await bind try_catch]; [|eexists; split; reflexivity].
    rewrite outcome_Call; destruct (fst (respond _ _ _));
      eexists; split; reflexivity.
  - (* list *)
    cbn [bind try_catch].
    rewrite outcome_Call; destruct (fst (respond _ _ _));
      eexists; split; reflexivity.
  - (* get *)
    destruct (assoc "key" params); cbn [option_map bind try_catch];
      [|eexists; split; reflexivity].
    rewrite outcome_Call; destruct (fst (respond _ _ _)) as [[ob|]|];
      eexists; split; reflexivity.
  - (* stats *)
    destruct (assoc "key" params); cbn [option_map bind try_catch];
      [|eexists; split; reflexivity].
    rewrite outcome_Call; destruct (fst (respond _ _ _)) as [[ob|]|];
      eexists; split; reflexivity.
  - (* delete *)
    destruct (assoc "key" params); cbn [option_map bind try_catch];
      [|eexists; split; reflexivity].
    rewrite outcome_Call; destruct (fst (respond _ _ _));
      eexists; split; reflexivity.
Qed.

Lemma json_error_status (statuses : list N) (resp : Response) :
  is_json_error statuses resp = true ->
  existsb (N.eqb (status resp)) statuses = true.
Proof.
  unfold is_json_error.
  destruct (resp_body resp) as [| |v|]; try discriminate.
  destruct v as [| | | | |[|[name [| | |msg| |]] [|]]]; try discriminate.
  intros H; apply andb_true_iff in H; tauto.
Qed.

(** X4: on the Hono application every request that matches a route ([HEAD]
    requests go through the [GET] routes) is answered.  The answer is a
    success or a JSON error [{"error": <message>}] with status 400, 404 or
    500; for a [HEAD] request it has one of these statuses and no body. *)
Lemma nested_errors_structured
      (req : Request) (env : Env)
      (S : Type) (respond : forall R : Type, S -> store_op R -> reply R * S)
      (s : S) :
  HonoApp.match_route (routed_as req) (HonoApp.getPath req) <> None ->
  exists resp,
    answered respond (serve Nested req env) s = Some resp
    /\ if String.eqb (req_method req) "HEAD"
       then resp_body resp = BodyNull
            /\ orb (is_success resp)
                 (existsb (N.eqb (status resp)) [400; 404; 500]%N) = true
       else orb (is_success resp)
              (is_json_error [400; 404; 500]%N resp) = true.
Proof.
  unfold routed_as, serve, HonoApp.fetch, answered.
  destruct (String.eqb (req_method req) "HEAD"); intros Hrouted.
  - destruct (HonoApp.match_route "GET" _) as [[rt params]|] eqn:Hr;
      [|contradiction Hrouted; reflexivity].
    destruct (dispatch_answers req env _ respond s Hr) as (sv & Ho & Hshape).
    rewrite outcome_bind_Ret, Ho.
    eexists; split; [reflexivity|]. split; [reflexivity|].
    cbn [response].
    apply orb_true_iff in Hshape; apply orb_true_iff.
    destruct Hshape as [H|H]; [left; exact H|right].
    exact (json_error_status _ _ H).
  - destruct (HonoApp.match_route (req_method req) _)
      as [[rt params]|] eqn:Hr; [|contradiction Hrouted; reflexivity].
    destruct (dispatch_answers req env _ respond s Hr) as (sv & Ho & Hshape).
    rewrite Ho. eexists; split; [reflexivity|exact Hshape].
Qed.

(** X3: the flat worker answers every request, with a success, a JSON error
    or one of the plain-text errors of its three helpers. *)
Lemma flat_error_shapes
      (req : Request) (env : Env)
      (S : Type) (respond : forall R : Type, S -> store_op R -> reply R * S)
      (s : S) :
  exists resp,
    answered respond (serve Flat req env) s = Some resp
    /\ orb (is_success resp)
         (orb (is_structured_error resp) (is_plain_text_error resp)) = true.
Proof.
  unfold serve, Worker.fetch, Worker.handleRequest.
  destruct (Worker.auth_rejected _ env); cbn [throw_if bind try_catch];
    [eexists; split; reflexivity|].
  destruct (nth_error _ 1) as [fp|]; cbn [bind try_catch];
    [|eexists; split; reflexivity].
  assert (Hcm : forall m, Worker.checkMethod req m = Ret tt
                          \/ Worker.checkMethod req m
                             = Throw (ThrownResponse
                                        (Response_text "Method not allowed" 405))).
  { intros m; unfold Worker.checkMethod.
    destruct (String.eqb (req_method req) m); [left|right]; reflexivity. }
  destruct (String.eqb fp "start-upload"); [|
  destruct (String.eqb fp "upload-part"); [|
  destruct (String.eqb fp "complete-upload"); [|
  destruct (String.eqb fp "download"); [|
  destruct (String.eqb fp "stats")]]]];
    unfold Worker.start_upload, Worker.upload_part, Worker.complete_upload,
      Worker.download, Worker.stats;
    try (destruct (Hcm "POST") as [Hc|Hc]; rewrite Hc; cbn [bind try_catch];
         [|eexists; split; reflexivity]);
    try (destruct (Hcm "GET") as [Hc|Hc]; rewrite Hc; cbn [bind try_catch];
         [|eexists; split; reflexivity]);
    unfold Worker.getUrlParamNumber, Worker.getUrlParam, request_json,
      on_bucket, on_mpu.
  - (* start-upload *)
    destruct (searchParams_get req "key"); cbn [bind try_catch];
      [|eexists; split; reflexivity].
    destruct (BUCKET env); cbn [bind try_catch];
      [|eexists; split; reflexivity].
    rewrite answered_Call; destruct (fst (respond _ _ _));
      eexists; split; reflexivity.
  - (* upload-part *)
    destruct (req_body req);
      destruct (searchParams_get req "key");
      destruct (searchParams_get req "uploadId");
      destruct (searchParams_get req "partNumber") as [value|];
      cbn [bind try_catch];
      try (eexists; split; reflexivity).
    destruct (isNaN (parseInt value)); cbn [bind try_catch];
      [eexists; split; reflexivity|].
    destruct (BUCKET env); cbn [bind try_catch];
      [|eexists; split; reflexivity].
    rewrite answered_Call; destruct (fst (respond _ _ _));
      cbn [await bind try_catch]; [|eexists; split; reflexivity].
    rewrite answered_Call; destruct (fst (respond _ _ _));
      eexists; split; reflexivity.
  - (* complete-upload *)
    destruct (searchParams_get req "key");
      destruct (searchParams_get req "uploadId");
      destruct (req_json req) as [v|];
      cbn [bind try_catch];
      try (eexists; split; reflexivity).
    destruct v as [|bl|n|str|items|props];
      try (eexists; split; reflexivity).
    destruct (every_valid_cases items) as [[ok Hev]|[e Hev]];
      rewrite Hev; cbn [bind try_catch];
      [|eexists; split; reflexivity].
    destruct ok; cbn [negb]; [|eexists; split; reflexivity].
    destruct (Nat.eqb (length items) 0); cbn [bind try_catch];
      [eexists; split; reflexivity|].
    destruct (BUCKET env); cbn [bind try_catch];
      [|eexists; split; reflexivity].
    rewrite answered_Call; destruct (fst (respond _ _ _));
      cbn [await bind try_catch]; [|eexists; split; reflexivity].
    rewrite answered_Call; destruct (fst (respond _ _ _));
      eexists; split; reflexivity.
  - (* download *)
    destruct (searchParams_get req "key"); cbn [bind try_catch];
      [|eexists; split; reflexivity].
    destruct (BUCKET env); cbn [bind try_catch];
      [|eexists; split; reflexivity].
    rewrite answered_Call; destruct (fst (respond _ _ _)) as [[ob|]|];
      eexists; split; reflexivity.
  - (* stats *)
    destruct (searchParams_get req "key"); cbn [bind try_catch];
      [|eexists; split; reflexivity].
    destruct (BUCKET env); cbn [bind try_catch];
      [|eexists; split; reflexivity].
    rewrite answered_Call; destruct (fst (respond _ _ _)) as [[ob|]|];
      eexists; split; reflexivity.
  - (* default *)
    eexists; split; reflexivity.
Qed.

(* ================================================================= *)
(** ** Delete *)

Lemma match_route_delete (method pathname : string)
      (params : list (string * string)) :
  HonoApp.match_route method pathname = Some (HonoApp.ObjectsDelete, params) ->
  exists key, split "/" pathname = [""; "objects"; key]
              /\ params = [("key", key)].
Proof.
  unfold HonoApp.match_route.
  destruct (split "/" pathname) as [|root [|a [|b [|d [|e rest]]]]];
    try discriminate.
  - destruct (andb _ _); discriminate.
  - destruct (String.eqb root "") eqn:Hroot; simpl; [|discriminate].
    destruct (String.eqb a "uploads").
    + destruct (String.eqb method "POST"); simpl; [|discriminate].
      destruct (String.eqb b "create"); [discriminate|].
      destruct (String.eqb b "upload-part"); [discriminate|].
      destruct (String.eqb b "complete"); discriminate.
    + destruct (String.eqb a "objects") eqn:Ha; simpl; [|discriminate].
      destruct (HonoApp.nonempty b); simpl; [|discriminate].
      destruct (String.eqb method "GET"); [discriminate|].
      destruct (String.eqb method "DELETE"); [|discriminate].
      intros H; injection H as H; subst params.
      apply String.eqb_eq in Hroot; apply String.eqb_eq in Ha; subst.
      exists b; auto.
  - destruct (andb _ _); discriminate.
Qed.

(** C8, as stated, fails on the flat worker, which has no delete route:
    [DELETE /objects/a.txt] with the right credential falls into the default
    case of its switch and is answered 404, the bucket untouched. *)
Lemma flat_has_no_delete_route :
  let req := Samples.request "DELETE" "/objects/a.txt" []
               Samples.credential None None in
  answered MemStore.respond (serve Flat req Samples.env) Samples.with_a_txt
  = Some (Response_json (error_object "Not found") 404)
  /\ calls MemStore.respond (serve Flat req Samples.env) Samples.with_a_txt
     = []
  /\ final_state MemStore.respond (serve Flat req Samples.env)
       Samples.with_a_txt = Samples.with_a_txt.
Proof. repeat split. Qed.

(** C8, amended: on the Hono application (bindings configured) a
    [DELETE /objects/:key] request makes one call, the deletion of the key
    taken from the path (the segment after [/objects/], percent-decoded the
    way [c.req.param] does), with no existence check before it; it is
    answered 204 with an empty body whenever that call returns, and never
    404. *)
Theorem delete_unconditional
        (req : Request) (env : Env)
        (S : Type) (respond : forall R : Type, S -> store_op R -> reply R * S)
        (s : S) :
  admitted Nested req env = true ->
  addresses Nested DeleteOp req = true ->
  exists key resp,
    object_key Nested req = Some key
    /\ calls respond (serve Nested req env) s = [CallOf (Delete key)]
    /\ answered respond (serve Nested req env) s = Some resp
    /\ status resp <> 404%N
    /\ (forall u, fst (respond _ s (Delete key)) = Returns u ->
                  resp = HonoApp.c_newResponse_null 204).
Proof.
  intros Hadm Haddr.
  enter_nested Hadm Haddr Hr.
  simpl in Hr.
  destruct (match_route_delete _ _ Hr) as (segment & Hsplit & Hparams).
  subst params.
  unfold HonoApp.objects_delete, HonoApp.getPathString, HonoApp.req_param,
    on_bucket, object_key;
    cbn [HonoApp.ctx_env HonoApp.ctx_params].
  rewrite Hb, Hsplit.
  cbn [assoc String.eqb Ascii.eqb Bool.eqb option_map nth_error
         bind try_catch].
  rewrite calls_Call, answered_Call.
  exists (HonoApp.decode_param segment).
  destruct (fst (respond _ s (Delete _))) as [u|n m];
    cbn [await bind try_catch].
  - exists (HonoApp.c_newResponse_null 204).
    repeat split; auto. discriminate.
  - exists (Response_json (error_object "Internal Server Error") 500).
    repeat split; auto; discriminate.
Qed.

(** Deleting a key the bucket does not hold, written with an escape. *)
Lemma delete_unconditional_witness :
  let req := Samples.request "DELETE" "/objects/missing%20file.bin" [] []
               None None in
  exists key resp,
    object_key Nested req = Some key
    /\ calls MemStore.respond (serve Nested req Samples.env) Samples.with_a_txt
       = [CallOf (Delete key)]
    /\ answered MemStore.respond (serve Nested req Samples.env)
         Samples.with_a_txt = Some resp
    /\ status resp <> 404%N
    /\ (forall u,
           fst (MemStore.respond Samples.with_a_txt (Delete key)) = Returns u ->
           resp = HonoApp.c_newResponse_null 204).
Proof.
  exact (@delete_unconditional
           (Samples.request "DELETE" "/objects/missing%20file.bin" [] []
              None None)
           Samples.env _ MemStore.respond Samples.with_a_txt
           eq_refl eq_refl).
Defined.

(** The key is what the escapes of the path segment stand for: [%20] is a
    space, and [%2F], which the path decoding leaves alone, a slash. *)
Example delete_decoded_key :
  let del path := Samples.request "DELETE" path [] [] None None in
  object_key Nested (del "/objects/a%20b.txt") = Some "a b.txt"
  /\ calls MemStore.respond
       (serve Nested (del "/objects/a%20b.txt") Samples.env)
       Samples.with_a_txt = [CallOf (Delete "a b.txt")]
  /\ calls MemStore.respond
       (serve Nested (del "/objects/a%2Fb") Samples.env)
       Samples.with_a_txt = [CallOf (Delete "a/b")]
  /\ calls MemStore.respond
       (serve Nested (del "/objects/a%2520b") Samples.env)
       Samples.with_a_txt = [CallOf (Delete "a%20b")].
Proof. repeat split. Qed.

Example delete_missing_key :
  let req := Samples.request "DELETE" "/objects/missing.bin" [] [] None None in
  assoc "missing.bin" (MemStore.objects Samples.with_a_txt) = None
  /\ answered MemStore.respond (serve Nested req Samples.env)
       Samples.with_a_txt = Some (HonoApp.c_newResponse_null 204)
  /\ calls MemStore.respond (serve Nested req Samples.env) Samples.with_a_txt
     = [CallOf (Delete "missing.bin")].
Proof. repeat split. Qed.

(* ================================================================= *)
(** ** Programs and the answers they get *)

Section Determinism.

Variable S1 S2 : Type.
Variable respond1 : forall R : Type, S1 -> store_op R -> reply R * S1.
Variable respond2 : forall R : Type, S2 -> store_op R -> reply R * S2.

(** What a program does is a function of the answers it receives: two
    runs that get the same answers make the same calls and end the same
    way, whatever the stores behind them. *)
Lemma run_determined_by_answers (A : Type) (p : prog A) :
  forall (s1 : S1) (s2 : S2),
    answers respond1 p s1 = answers respond2 p s2 ->
    outcome respond1 p s1 = outcome respond2 p s2
    /\ calls respond1 p s1 = calls respond2 p s2.
Proof.
  induction p as [a|e|R op k IH]; intros s1 s2 H.
  - split; reflexivity.
  - split; reflexivity.
  - rewrite !answers_Call in H.
    rewrite !outcome_Call, !calls_Call.
    injection H as Hhead Htail.
    apply inj_pair2 in Hhead.
    rewrite Hhead in *.
    destruct (IH _ _ _ Htail) as [Ho Hc].
    rewrite Ho, Hc; split; reflexivity.
Qed.

End Determinism.

(* ================================================================= *)
(** ** Route matching of the Hono application *)

(** What a successful match says about method, path and parameters. *)
Lemma match_route_inv (method pathname : string) (rt : HonoApp.route)
      (params : list (string * string)) :
  HonoApp.match_route method pathname = Some (rt, params) ->
  match rt with
  | HonoApp.UploadsCreate =>
      method = "POST" /\ split "/" pathname = [""; "uploads"; "create"]
      /\ params = []
  | HonoApp.UploadsUploadPart =>
      method = "POST" /\ split "/" pathname = [""; "uploads"; "upload-part"]
      /\ params = []
  | HonoApp.UploadsComplete =>
      method = "POST" /\ split "/" pathname = [""; "uploads"; "complete"]
      /\ params = []
  | HonoApp.ObjectsList =>
      method = "GET" /\ split "/" pathname = [""; "objects"] /\ params = []
  | HonoApp.ObjectsGet =>
      method = "GET"
      /\ exists key, split "/" pathname = [""; "objects"; key]
                     /\ key <> "" /\ params = [("key", key)]
  | HonoApp.ObjectsStats =>
      method = "GET"
      /\ exists key, split "/" pathname = [""; "objects"; key; "stats"]
                     /\ key <> "" /\ params = [("key", key)]
  | HonoApp.ObjectsDelete =>
      method = "DELETE"
      /\ exists key, split "/" pathname = [""; "objects"; key]
                     /\ key <> "" /\ params = [("key", key)]
  end.
Proof.
  unfold HonoApp.match_route, HonoApp.nonempty.
  destruct (split "/" pathname) as [|root [|a [|b [|d [|e rest]]]]];
    try discriminate.
  - destruct (String.eqb root "") eqn:Hroot; simpl; [|discriminate].
    destruct (String.eqb a "objects") eqn:Ha; simpl; [|discriminate].
    destruct (String.eqb method "GET") eqn:Hm; simpl; [|discriminate].
    intros H; injection H as <- <-.
    apply String.eqb_eq in Hroot, Ha, Hm; subst; auto.
  - destruct (String.eqb root "") eqn:Hroot; simpl; [|discriminate].
    apply String.eqb_eq in Hroot; subst root.
    destruct (String.eqb a "uploads") eqn:Ha.
    + apply String.eqb_eq in Ha; subst a.
      destruct (String.eqb method "POST") eqn:Hm; simpl; [|discriminate].
      apply String.eqb_eq in Hm; subst method.
      destruct (String.eqb b "create") eqn:H1;
        [apply String.eqb_eq in H1; subst b;
         intros H; injection H as <- <-; auto|].
      destruct (String.eqb b "upload-part") eqn:H2;
        [apply String.eqb_eq in H2; subst b;
         intros H; injection H as <- <-; auto|].
      destruct (String.eqb b "complete") eqn:H3;
        [apply String.eqb_eq in H3; subst b;
         intros H; injection H as <- <-; auto|].
      discriminate.
    + destruct (String.eqb a "objects") eqn:Ho; simpl; [|discriminate].
      apply String.eqb_eq in Ho; subst a.
      destruct (String.eqb b "") eqn:Hb; simpl; [discriminate|].
      apply String.eqb_neq in Hb.
      destruct (String.eqb method "GET") eqn:Hm.
      * apply String.eqb_eq in Hm; subst method.
        intros H; injection H as <- <-. split; [reflexivity|]. exists b; auto.
      * destruct (String.eqb method "DELETE") eqn:Hd; [|discriminate].
        apply String.eqb_eq in Hd; subst method.
        intros H; injection H as <- <-. split; [reflexivity|]. exists b; auto.
  - destruct (String.eqb root "") eqn:Hroot; simpl; [|discriminate].
    destruct (String.eqb a "objects") eqn:Ha; simpl; [|discriminate].
    destruct (String.eqb b "") eqn:Hb; simpl; [discriminate|].
    destruct (String.eqb d "stats") eqn:Hd; simpl; [|discriminate].
    destruct (String.eqb method "GET") eqn:Hm; simpl; [|discriminate].
    intros H; injection H as <- <-.
    apply String.eqb_eq in Hroot, Ha, Hd, Hm; apply String.eqb_neq in Hb.
    subst. split; [reflexivity|]. exists b; auto.
Qed.

(* ================================================================= *)
(** ** Every call sequence the gateways can produce *)

(** One awaited call: ask the store, then go on or stop. *)
Ltac next_call :=
  rewrite calls_Call;
  match goal with
  | |- context [fst (?respond ?R ?s ?op)] =>
      destruct (fst (respond R s op))
  end;
  cbn [await bind try_catch].

Ltac possible := cbn [bind try_catch calls]; eauto using possible_calls.

(** The calls of one dispatch of the Hono application, under the method
    the request is routed as. *)
Lemma dispatch_calls_possible
      (req : Request) (env : Env) (method : string)
      (S : Type) (respond : forall R : Type, S -> store_op R -> reply R * S)
      (s : S) :
  method = routed_as req ->
  possible_calls Nested req env
    (calls respond (HonoApp.dispatch req env method) s).
Proof.
  intros Hmethod.
  assert (Hpost : method = "POST" -> req_method req = "POST").
  { unfold routed_as in Hmethod; intros ->.
    destruct (String.eqb (req_method req) "HEAD"); [discriminate|auto]. }
  assert (Hdel : method = "DELETE" -> req_method req = "DELETE").
  { unfold routed_as in Hmethod; intros ->.
    destruct (String.eqb (req_method req) "HEAD"); [discriminate|auto]. }
  assert (Hget : method = "GET" -> reads Nested req = true).
  { unfold routed_as, reads in *; intros ->.
    destruct (String.eqb (req_method req) "HEAD");
      [apply orb_true_r|].
    rewrite <- Hmethod; reflexivity. }
  clear Hmethod.
  unfold HonoApp.dispatch, HonoApp.middleware.
  cbn [HonoApp.ctx_env HonoApp.ctx_req].
  destruct (BUCKET env) as [bk|] eqn:Hbk; [|possible].
  assert (Hbound : bucket_bound env = true)
    by (unfold bucket_bound; rewrite Hbk; reflexivity).
  destruct (AUTH_KEY env) as [ak|]; [|possible].
  destruct (HonoApp.match_route _ _) as [[rt params]|] eqn:Hr; [|possible].
  apply match_route_inv in Hr.
  destruct rt; cbn [HonoApp.handler];
    unfold HonoApp.uploads_create, HonoApp.uploads_upload_part,
      HonoApp.uploads_complete, HonoApp.objects_list, HonoApp.objects_get,
      HonoApp.objects_stats, HonoApp.objects_delete,
      HonoApp.getQueryNumber, HonoApp.getQueryString, HonoApp.getPathString,
      HonoApp.req_query, HonoApp.req_param, request_json, on_bucket, on_mpu;
    cbn [HonoApp.ctx_env HonoApp.ctx_req HonoApp.ctx_params];
    rewrite ?Hbk.
  - destruct Hr as (Hm & _ & _). apply Hpost in Hm.
    destruct (searchParams_get req "key") eqn:Hkey; cbn [bind try_catch];
      [|possible].
    next_call; possible.
  - destruct Hr as (Hm & _ & _). apply Hpost in Hm.
    destruct (req_body req) eqn:Hbody; cbn [bind try_catch]; [|possible].
    destruct (searchParams_get req "key") eqn:Hkey; cbn [bind try_catch];
      [|possible].
    destruct (searchParams_get req "uploadId") eqn:Hid;
      cbn [bind try_catch]; [|possible].
    destruct (searchParams_get req "partNumber") as [value|] eqn:Hpn;
      cbn [bind try_catch]; [|possible].
    destruct (isNaN (parseInt value)); cbn [bind try_catch]; [possible|].
    next_call; [|possible]. next_call; possible.
  - destruct Hr as (Hm & _ & _). apply Hpost in Hm.
    destruct (searchParams_get req "key") eqn:Hkey; cbn [bind try_catch];
      [|possible].
    destruct (searchParams_get req "uploadId") eqn:Hid;
      cbn [bind try_catch]; [|possible].
    destruct (req_json req) as [v|] eqn:Hjson; cbn [bind try_catch];
      [|possible].
    destruct v as [|bl|n|str|items|props]; try possible.
    destruct (every_valid_cases items) as [[ok Hev]|[e Hev]];
      rewrite Hev; cbn [bind try_catch]; [|possible].
    destruct ok; cbn [negb]; [|possible].
    destruct (Nat.eqb (length items) 0); cbn [bind try_catch]; [possible|].
    next_call; [|possible]. next_call; possible.
  - destruct Hr as (Hm & _ & _). apply Hget in Hm.
    cbn [bind try_catch]. next_call; possible.
  - destruct Hr as (Hm & segment & Hsplit & _ & ->). apply Hget in Hm.
    assert (Hok : object_key Nested req
                  = Some (HonoApp.decode_param segment))
      by (unfold object_key; rewrite Hsplit; reflexivity).
    cbn [assoc String.eqb Ascii.eqb Bool.eqb option_map bind try_catch].
    rewrite calls_Call.
    destruct (fst (respond _ _ _)) as [[ob|]|]; possible.
  - destruct Hr as (Hm & segment & Hsplit & _ & ->). apply Hget in Hm.
    assert (Hok : object_key Nested req
                  = Some (HonoApp.decode_param segment))
      by (unfold object_key; rewrite Hsplit; reflexivity).
    cbn [assoc String.eqb Ascii.eqb Bool.eqb option_map bind try_catch].
    rewrite calls_Call.
    destruct (fst (respond _ _ _)) as [[ob|]|]; possible.
  - destruct Hr as (Hm & segment & Hsplit & _ & ->). apply Hdel in Hm.
    assert (Hok : object_key Nested req
                  = Some (HonoApp.decode_param segment))
      by (unfold object_key; rewrite Hsplit; reflexivity).
    cbn [assoc String.eqb Ascii.eqb Bool.eqb option_map bind try_catch].
    next_call; possible.
Qed.

Lemma serve_calls_possible
        (g : gateway) (req : Request) (env : Env)
        (S : Type) (respond : forall R : Type, S -> store_op R -> reply R * S)
        (s : S) :
  possible_calls g req env (calls respond (serve g req env) s).
Proof.
  assert (Hbound : forall b, BUCKET env = Some b -> bucket_bound env = true)
    by (intros b Hb; unfold bucket_bound; rewrite Hb; reflexivity).
  destruct g.
  - unfold serve, Worker.fetch, Worker.handleRequest.
    destruct (Worker.auth_rejected _ env); cbn [throw_if bind try_catch];
      [possible|].
    destruct (nth_error _ 1) as [fp|]; cbn [bind try_catch]; [|possible].
    destruct (String.eqb fp "start-upload"); [|
    destruct (String.eqb fp "upload-part"); [|
    destruct (String.eqb fp "complete-upload"); [|
    destruct (String.eqb fp "download"); [|
    destruct (String.eqb fp "stats")]]]];
      unfold Worker.start_upload, Worker.upload_part, Worker.complete_upload,
        Worker.download, Worker.stats, Worker.checkMethod;
      try match goal with
          | |- context [String.eqb (req_method req) ?m] =>
              destruct (String.eqb (req_method req) m) eqn:Hm;
              cbn [negb throw_if bind try_catch];
              [|possible]
          end;
      unfold Worker.getUrlParamNumber, Worker.getUrlParam, request_json,
        on_bucket, on_mpu.
    + apply String.eqb_eq in Hm.
      destruct (searchParams_get req "key") eqn:Hkey; cbn [bind try_catch];
        [|possible].
      destruct (BUCKET env) eqn:Hbk; cbn [bind try_catch]; [|possible].
      next_call; possible.
    + apply String.eqb_eq in Hm.
      destruct (req_body req) eqn:Hbody; cbn [bind try_catch]; [|possible].
      destruct (searchParams_get req "key") eqn:Hkey; cbn [bind try_catch];
        [|possible].
      destruct (searchParams_get req "uploadId") eqn:Hid;
        cbn [bind try_catch]; [|possible].
      destruct (searchParams_get req "partNumber") as [value|] eqn:Hpn;
        cbn [bind try_catch]; [|possible].
      destruct (isNaN (parseInt value)); cbn [bind try_catch]; [possible|].
      destruct (BUCKET env) eqn:Hbk; cbn [bind try_catch]; [|possible].
      next_call; [|possible]. next_call; possible.
    + apply String.eqb_eq in Hm.
      destruct (searchParams_get req "key") eqn:Hkey; cbn [bind try_catch];
        [|possible].
      destruct (searchParams_get req "uploadId") eqn:Hid;
        cbn [bind try_catch]; [|possible].
      destruct (req_json req) as [v|] eqn:Hjson; cbn [bind try_catch];
        [|possible].
      destruct v as [|bl|n|str|items|props]; try possible.
      destruct (every_valid_cases items) as [[ok Hev]|[e Hev]];
        rewrite Hev; cbn [bind try_catch]; [|possible].
      destruct ok; cbn [negb]; [|possible].
      destruct (Nat.eqb (length items) 0); cbn [bind try_catch]; [possible|].
      destruct (BUCKET env) eqn:Hbk; cbn [bind try_catch]; [|possible].
      next_call; [|possible]. next_call; possible.
    + assert (Hread : reads Flat req = true)
        by (unfold reads; rewrite Hm; reflexivity).
      destruct (searchParams_get req "key") eqn:Hkey; cbn [bind try_catch];
        [|possible].
      destruct (BUCKET env) eqn:Hbk; cbn [bind try_catch]; [|possible].
      change (object_key Flat req = Some s0) in Hkey.
      rewrite calls_Call.
      destruct (fst (respond _ _ _)) as [[ob|]|]; possible.
    + assert (Hread : reads Flat req = true)
        by (unfold reads; rewrite Hm; reflexivity).
      destruct (searchParams_get req "key") eqn:Hkey; cbn [bind try_catch];
        [|possible].
      destruct (BUCKET env) eqn:Hbk; cbn [bind try_catch]; [|possible].
      change (object_key Flat req = Some s0) in Hkey.
      rewrite calls_Call.
      destruct (fst (respond _ _ _)) as [[ob|]|]; possible.
    + possible.
  - unfold serve, HonoApp.fetch, routed_as.
    pose proof (dispatch_calls_possible req env respond s
                  (method := routed_as req) eq_refl) as Hd.
    unfold routed_as in Hd.
    destruct (String.eqb (req_method req) "HEAD").
    + rewrite calls_bind_Ret; exact Hd.
    + exact Hd.
Qed.

(** X5: whatever the request and whatever the store answers, the calls made
    while serving it are one of nine sequences, each tied to the method, the
    parameters and the body of the request; nothing is called without the
    bucket binding. *)
Theorem calls_possible
        (g : gateway) (req : Request) (env : Env)
        (S : Type) (respond : forall R : Type, S -> store_op R -> reply R * S)
        (s : S) :
  possible_calls g req env (calls respond (serve g req env) s).
Proof. apply serve_calls_possible. Qed.

(** X6: serving a request costs at most two calls to the backing store. *)
Theorem calls_at_most_two
        (g : gateway) (req : Request) (env : Env)
        (S : Type) (respond : forall R : Type, S -> store_op R -> reply R * S)
        (s : S) :
  length (calls respond (serve g req env) s) <= 2.
Proof.
  destruct (serve_calls_possible g req env respond s); simpl; lia.
Qed.

(** X7: nothing is ever called on a missing bucket binding. *)
Theorem no_call_without_bucket
        (g : gateway) (req : Request) (env : Env)
        (S : Type) (respond : forall R : Type, S -> store_op R -> reply R * S)
        (s : S) :
  BUCKET env = None ->
  calls respond (serve g req env) s = [].
Proof.
  intros Hnone.
  assert (Hb : bucket_bound env = false)
    by (unfold bucket_bound; rewrite Hnone; reflexivity).
  destruct (serve_calls_possible g req env respond s); try reflexivity;
    congruence.
Qed.

Lemma no_call_without_bucket_witness :
  calls MemStore.respond
    (serve Flat
       (Samples.request "POST" "/start-upload" [("key", "a.txt")]
          Samples.credential None None)
       {| BUCKET := None; AUTH_KEY := Some "s3cret" |})
    MemStore.empty = [].
Proof.
  apply (@no_call_without_bucket Flat); reflexivity.
Defined.

(** X8: a call that changes the bucket (create, upload part, complete, delete)
    is only made for a [POST] request, or for a [DELETE] request on the Hono
    application; in particular a [GET] request never changes the bucket. *)
Theorem mutation_needs_post_or_delete
        (g : gateway) (req : Request) (env : Env)
        (S : Type) (respond : forall R : Type, S -> store_op R -> reply R * S)
        (s : S) :
  existsb mutating (calls respond (serve g req env) s) = true ->
  req_method req = "POST" \/ (g = Nested /\ req_method req = "DELETE").
Proof.
  destruct (serve_calls_possible g req env respond s); simpl; intros Hmut;
    try discriminate; auto.
Qed.

Lemma mutation_needs_post_or_delete_witness :
  let req := Samples.request "DELETE" "/objects/a.txt" [] [] None None in
  req_method req = "POST" \/ (Nested = Nested /\ req_method req = "DELETE").
Proof.
  apply (@mutation_needs_post_or_delete Nested
           (Samples.request "DELETE" "/objects/a.txt" [] [] None None)
           Samples.env _ MemStore.respond Samples.with_a_txt).
  reflexivity.
Defined.

(* ================================================================= *)
(** ** Rejections of the backing store *)

Lemma awaiting_bind (A B : Type) (p : prog A) (f : A -> prog B) :
  awaiting p -> (forall a, awaiting (f a)) -> awaiting (bind p f).
Proof.
  intros Hp Hf; induction Hp as [a|e|R op k Hrej Hret IH]; simpl.
  - apply Hf.
  - constructor.
  - constructor.
    + intros n m; rewrite Hrej; reflexivity.
    + exact IH.
Qed.

Lemma awaiting_on_bucket (R : Type) (env : Env) (op : store_op R) :
  awaiting (on_bucket env op).
Proof.
  unfold on_bucket; destruct (BUCKET env); constructor;
    intros; simpl; constructor.
Qed.

Lemma awaiting_on_mpu (R : Type) (op : store_op R) : awaiting (on_mpu op).
Proof. constructor; intros; simpl; constructor. Qed.

Lemma awaiting_every (items : list json) :
  awaiting (every part_is_valid items).
Proof.
  destruct (every_valid_cases items) as [[ok H]|[e H]]; rewrite H; constructor.
Qed.

(** Decomposes a handler into its binds, branches and awaited calls. *)
Ltac awaited :=
  repeat first
    [ apply awaiting_Ret
    | apply awaiting_Throw
    | apply awaiting_on_bucket
    | apply awaiting_on_mpu
    | apply awaiting_every
    | apply awaiting_bind
    | intro
    | match goal with
      | |- awaiting (match ?x with _ => _ end) => destruct x
      | |- awaiting (if ?x then _ else _) => destruct x
      | |- awaiting (let _ := _ in _) => cbv zeta
      end ].

Lemma awaiting_worker (req : Request) (env : Env) :
  awaiting (r <- Worker.handleRequest req env ;; Ret (quiet r)).
Proof.
  unfold Worker.handleRequest, Worker.start_upload, Worker.upload_part,
    Worker.complete_upload, Worker.download, Worker.stats,
    Worker.getUrlParamNumber, Worker.getUrlParam, Worker.checkMethod,
    request_json, throw_if.
  awaited.
Qed.

Lemma awaiting_handler (rt : HonoApp.route) (c : HonoApp.Context) :
  awaiting (HonoApp.handler rt c).
Proof.
  destruct rt; cbn [HonoApp.handler];
    unfold HonoApp.uploads_create, HonoApp.uploads_upload_part,
      HonoApp.uploads_complete, HonoApp.objects_list, HonoApp.objects_get,
      HonoApp.objects_stats, HonoApp.objects_delete,
      HonoApp.getQueryNumber, HonoApp.getQueryString, HonoApp.getPathString,
      request_json;
    awaited.
Qed.

Section Rejections.

Variable S : Type.
Variable respond : forall R : Type, S -> store_op R -> reply R * S.

(** In a [try] block made of awaited calls, a rejection ends the block at
    once: the rejected call is the last one and the [catch] handler (which
    calls nothing) receives the store's error. *)
Lemma rejection_reaches_handler (A : Type) (p : prog A) (h : exn -> prog A) :
  awaiting p ->
  (forall e s, transcript respond (h e) s = []) ->
  forall s,
    existsb rejected (transcript respond (try_catch p h) s) = true ->
    exists pre R (op : store_op R) n m s',
      transcript respond (try_catch p h) s
      = pre ++ [Exchange op (Rejects n m)]
      /\ existsb rejected pre = false
      /\ outcome respond (try_catch p h) s
         = outcome respond (h (Error n m)) s'.
Proof.
  intros Hp Hh; induction Hp as [a|e|R op k Hrej Hret IH]; intros s H.
  - discriminate H.
  - simpl in H; rewrite Hh in H; discriminate H.
  - cbn [try_catch] in *.
    rewrite transcript_Call in *; rewrite outcome_Call.
    destruct (fst (respond s op)) as [r|n m] eqn:Hans.
    + simpl in H.
      destruct (IH r _ H) as (pre & R' & op' & n & m & s' & Ht & Hpre & Ho).
      exists (Exchange op (Returns r) :: pre), R', op', n, m, s'.
      rewrite Ht; repeat split; auto.
    + rewrite Hrej; cbn [try_catch].
      exists [], R, op, n, m, (snd (respond s op)).
      rewrite Hh; repeat split; reflexivity.
Qed.

End Rejections.

Lemma dispatch_rejection
      (req : Request) (env : Env) (method : string)
      (S : Type) (respond : forall R : Type, S -> store_op R -> reply R * S)
      (s : S) :
  existsb rejected (transcript respond (HonoApp.dispatch req env method) s)
  = true ->
  exists pre R (op : store_op R) n m,
    transcript respond (HonoApp.dispatch req env method) s
    = pre ++ [Exchange op (Rejects n m)]
    /\ existsb rejected pre = false
    /\ outcome respond (HonoApp.dispatch req env method) s
       = Returned {| response := internal_error Nested;
                     console := [Error n m] |}.
Proof.
  unfold HonoApp.dispatch, HonoApp.middleware; intros H.
  apply rejection_reaches_handler in H.
  - destruct H as (pre & R & op & n & m & s' & Ht & Hpre & Ho).
    exists pre, R, op, n, m; repeat split; auto.
  - cbn [HonoApp.ctx_env].
    apply awaiting_bind; [|intro; constructor].
    destruct (BUCKET env); [|constructor].
    destruct (AUTH_KEY env); [|constructor].
    destruct (HonoApp.match_route _ _) as [[rt params]|];
      [apply awaiting_handler | constructor].
  - intros e s0; reflexivity.
Qed.

(** X9: when the backing store rejects a call, on either gateway, that call
    is the last one made, the answer is the gateway's generic 500 (which
    says nothing about the error; without body for a [HEAD] request on the
    Hono application) and the error goes to the console. *)
Theorem store_rejection_is_500
        (g : gateway) (req : Request) (env : Env)
        (S : Type) (respond : forall R : Type, S -> store_op R -> reply R * S)
        (s : S) :
  existsb rejected (transcript respond (serve g req env) s) = true ->
  exists pre R (op : store_op R) n m,
    transcript respond (serve g req env) s
    = pre ++ [Exchange op (Rejects n m)]
    /\ existsb rejected pre = false
    /\ outcome respond (serve g req env) s
       = Returned {| response := on_the_wire g req (internal_error g);
                     console := [Error n m] |}.
Proof.
  destruct g.
  - unfold serve, Worker.fetch; intros H.
    apply rejection_reaches_handler in H.
    + destruct H as (pre & R & op & n & m & s' & Ht & Hpre & Ho).
      exists pre, R, op, n, m; repeat split; auto.
    + apply awaiting_worker.
    + intros [r|st msg|n m] s0; reflexivity.
  - unfold serve, HonoApp.fetch, on_the_wire.
    destruct (String.eqb (req_method req) "HEAD").
    + rewrite transcript_bind_Ret, outcome_bind_Ret; intros H.
      destruct (dispatch_rejection req env "GET" respond s H)
        as (pre & R & op & n & m & Ht & Hpre & Ho).
      exists pre, R, op, n, m. rewrite Ho. repeat split; auto.
    + apply dispatch_rejection.
Qed.

(** Completing a session with a part that was never uploaded: the reference
    store rejects the call. *)
Lemma store_rejection_is_500_witness :
  let req := Samples.request "POST" "/uploads/complete"
               [("key", "a.txt"); ("uploadId", "u1")] [] (Some "...")
               (Some (JArr [Samples.part (number_of_N 1) "E1"])) in
  exists pre R (op : store_op R) n m,
    transcript MemStore.respond (serve Nested req Samples.env) MemStore.empty
    = pre ++ [Exchange op (Rejects n m)]
    /\ existsb rejected pre = false
    /\ outcome MemStore.respond (serve Nested req Samples.env) MemStore.empty
       = Returned {| response := internal_error Nested;
                     console := [Error n m] |}.
Proof.
  apply (@store_rejection_is_500 Nested); reflexivity.
Defined.

(** A [HEAD] request on the Hono application whose [get] the store
    rejects: the generic 500, without body. *)
Example head_rejection :
  let req := Samples.request "HEAD" "/objects/a.txt" [] [] None None in
  let refusing (R : Type) (s : unit) (op : store_op R) : reply R * unit :=
    (Rejects "Error" "unavailable", s) in
  outcome refusing (serve Nested req Samples.env) tt
  = Returned {| response :=
                  {| status := 500;
                     resp_headers := [("content-type", "application/json")];
                     resp_body := BodyNull |};
                console := [Error "Error" "unavailable"] |}
  /\ calls refusing (serve Nested req Samples.env) tt
     = [CallOf (Get "a.txt")].
Proof. split; reflexivity. Qed.

(* ================================================================= *)
(** ** The switch of the flat worker *)

(** X10: a request with the right credential on one of the five paths of the
    flat worker, but with another method than the path expects, is answered
    405 "Method not allowed" before any parameter is read or any call
    made. *)
Theorem flat_wrong_method
        (o : operation) (seg method : string) (req : Request) (env : Env)
        (S : Type) (respond : forall R : Type, S -> store_op R -> reply R * S)
        (s : S) :
  admitted Flat req env = true ->
  flat_route o = Some (seg, method) ->
  first_path req = Some seg ->
  req_method req <> method ->
  answered respond (serve Flat req env) s
  = Some (Response_text "Method not allowed" 405)
  /\ calls respond (serve Flat req env) s = [].
Proof.
  intros Hadm Hroute Hp Hm.
  apply flat_admitted in Hadm.
  apply String.eqb_neq in Hm.
  unfold first_path in Hp.
  unfold serve, Worker.fetch, Worker.handleRequest.
  rewrite Hadm, Hp.
  destruct o; simpl in Hroute; try discriminate;
    injection Hroute as <- <-;
    simpl String.eqb; cbv beta iota;
    unfold Worker.start_upload, Worker.upload_part, Worker.complete_upload,
      Worker.download, Worker.stats, Worker.checkMethod;
    rewrite Hm; split; reflexivity.
Qed.

Lemma flat_wrong_method_witness :
  let req := Samples.request "GET" "/upload-part" [] Samples.credential
               (Some "hello") None in
  answered MemStore.respond (serve Flat req Samples.env) MemStore.empty
  = Some (Response_text "Method not allowed" 405)
  /\ calls MemStore.respond (serve Flat req Samples.env) MemStore.empty = [].
Proof.
  apply (@flat_wrong_method UploadPartOp "upload-part" "POST");
    try reflexivity.
  discriminate.
Defined.

(** X11: a request with the right credential whose first path segment is none of
    the five the flat worker knows is answered 404 [{"error": "Not found"}]
    whatever its method, and nothing is called. *)
Theorem flat_unknown_path
        (req : Request) (env : Env)
        (S : Type) (respond : forall R : Type, S -> store_op R -> reply R * S)
        (s : S) :
  admitted Flat req env = true ->
  (forall o seg method,
      flat_route o = Some (seg, method) -> first_path req <> Some seg) ->
  answered respond (serve Flat req env) s
  = Some (Response_json (error_object "Not found") 404)
  /\ calls respond (serve Flat req env) s = [].
Proof.
  intros Hadm Hnone.
  apply flat_admitted in Hadm.
  unfold first_path in Hnone.
  unfold serve, Worker.fetch, Worker.handleRequest.
  rewrite Hadm.
  destruct (nth_error _ 1) as [fp|]; [|split; reflexivity].
  cbn [throw_if bind try_catch].
  destruct (String.eqb fp "start-upload") eqn:H1;
    [apply String.eqb_eq in H1; subst fp;
     exfalso; exact (Hnone StartUpload _ _ eq_refl eq_refl)|].
  destruct (String.eqb fp "upload-part") eqn:H2;
    [apply String.eqb_eq in H2; subst fp;
     exfalso; exact (Hnone UploadPartOp _ _ eq_refl eq_refl)|].
  destruct (String.eqb fp "complete-upload") eqn:H3;
    [apply String.eqb_eq in H3; subst fp;
     exfalso; exact (Hnone CompleteUpload _ _ eq_refl eq_refl)|].
  destruct (String.eqb fp "download") eqn:H4;
    [apply String.eqb_eq in H4; subst fp;
     exfalso; exact (Hnone Download _ _ eq_refl eq_refl)|].
  destruct (String.eqb fp "stats") eqn:H5;
    [apply String.eqb_eq in H5; subst fp;
     exfalso; exact (Hnone Stats _ _ eq_refl eq_refl)|].
  split; reflexivity.
Qed.

Lemma flat_unknown_path_witness :
  let req := Samples.request "GET" "/objects" [] Samples.credential
               None None in
  answered MemStore.respond (serve Flat req Samples.env) Samples.with_a_txt
  = Some (Response_json (error_object "Not found") 404)
  /\ calls MemStore.respond (serve Flat req Samples.env) Samples.with_a_txt
     = [].
Proof.
  apply flat_unknown_path; [reflexivity|].
  intros o seg method Hroute.
  destruct o; simpl in Hroute; try discriminate;
    injection Hroute as <- <-; discriminate.
Defined.

(* ================================================================= *)
(** ** Download and stats *)

Lemma nested_object_key (req : Request) (rt : HonoApp.route)
      (params : list (string * string)) (key : string) :
  HonoApp.match_route (req_method req) (HonoApp.getPath req)
  = Some (rt, params) ->
  rt = HonoApp.ObjectsGet \/ rt = HonoApp.ObjectsStats
  \/ rt = HonoApp.ObjectsDelete ->
  object_key Nested req = Some key ->
  exists segment,
    params = [("key", segment)] /\ key = HonoApp.decode_param segment.
Proof.
  intros Hr Hrt Hk. apply match_route_inv in Hr. unfold object_key in Hk.
  destruct Hrt as [->|[->| ->]];
    destruct Hr as (_ & segment & Hsplit & _ & ->);
    rewrite Hsplit in Hk; cbn [nth_error option_map] in Hk;
    injection Hk as <-; exists segment; auto.
Qed.

(** X12: a download asks the store for the object under the requested key and
    for nothing else.  A missing object is answered 404
    [{"error": "Not found"}]; an object is answered 200 with its bytes as
    body and its HTTP metadata as headers. *)
Theorem download_object
        (g : gateway) (req : Request) (env : Env)
        (S : Type) (respond : forall R : Type, S -> store_op R -> reply R * S)
        (s : S) (key : string) :
  admitted g req env = true ->
  addresses g Download req = true ->
  bucket_bound env = true ->
  object_key g req = Some key ->
  calls respond (serve g req env) s = [CallOf (Get key)]
  /\ answered respond (serve g req env) s
     = Some (match fst (respond _ s (Get key)) with
             | Returns (Some o) =>
                 {| status := 200;
                    resp_headers := writeHttpMetadata (ob_object o);
                    resp_body := BodyStream (ob_body o) |}
             | Returns None => Response_json (error_object "Not found") 404
             | Rejects _ _ => internal_error g
             end).
Proof.
  intros Hadm Haddr Hbucket Hkey.
  unfold bucket_bound in Hbucket.
  destruct (BUCKET env) as [bk|] eqn:Hbk; [|discriminate].
  destruct g.
  - enter_flat Hadm Haddr Hm.
    unfold Worker.download, Worker.getUrlParam, on_bucket.
    unfold object_key in Hkey.
    rewrite (checkMethod_passes req Hm), Hkey, Hbk. cbn [bind try_catch].
    rewrite calls_Call, answered_Call.
    destruct (fst (respond _ s (Get key))) as [[o|]|n m];
      split; reflexivity.
  - enter_nested Hadm Haddr Hr.
    simpl in Hr.
    destruct (nested_object_key req Hr (or_introl eq_refl) Hkey)
      as (segment & -> & Hdec).
    unfold HonoApp.objects_get, HonoApp.getPathString, HonoApp.req_param,
      on_bucket; cbn [HonoApp.ctx_env HonoApp.ctx_params].
    rewrite Hb.
    cbn [assoc String.eqb Ascii.eqb Bool.eqb option_map bind try_catch].
    rewrite <- Hdec.
    rewrite calls_Call, answered_Call.
    destruct (fst (respond _ s (Get key))) as [[o|]|n m];
      split; reflexivity.
Qed.

Lemma download_object_witness :
  let req := Samples.request "GET" "/objects/a.txt" [] [] None None in
  calls MemStore.respond (serve Nested req Samples.env) Samples.with_a_txt
  = [CallOf (Get "a.txt")]
  /\ answered MemStore.respond (serve Nested req Samples.env)
       Samples.with_a_txt
     = Some {| status := 200;
               resp_headers := [("etag", "etag:hello")];
               resp_body := BodyStream "hello" |}.
Proof.
  exact (@download_object Nested
           (Samples.request "GET" "/objects/a.txt" [] [] None None)
           Samples.env _ MemStore.respond Samples.with_a_txt "a.txt"
           eq_refl eq_refl eq_refl eq_refl).
Defined.

(** X13: a stats request asks the store for the metadata of the requested key
    only (the object's bytes are never fetched).  A missing object is
    answered 404 [{"error": "Not found"}]; otherwise the answer is 200 with
    the size and the etag the store reported. *)
Theorem object_stats
        (g : gateway) (req : Request) (env : Env)
        (S : Type) (respond : forall R : Type, S -> store_op R -> reply R * S)
        (s : S) (key : string) :
  admitted g req env = true ->
  addresses g Stats req = true ->
  bucket_bound env = true ->
  object_key g req = Some key ->
  calls respond (serve g req env) s = [CallOf (Head key)]
  /\ answered respond (serve g req env) s
     = Some (match fst (respond _ s (Head key)) with
             | Returns (Some o) =>
                 Response_json
                   (JObj [("size", JNum (number_of_N (obj_size o)));
                          ("etag", JStr (obj_etag o))]) 200
             | Returns None => Response_json (error_object "Not found") 404
             | Rejects _ _ => internal_error g
             end).
Proof.
  intros Hadm Haddr Hbucket Hkey.
  unfold bucket_bound in Hbucket.
  destruct (BUCKET env) as [bk|] eqn:Hbk; [|discriminate].
  destruct g.
  - enter_flat Hadm Haddr Hm.
    unfold Worker.stats, Worker.getUrlParam, on_bucket.
    unfold object_key in Hkey.
    rewrite (checkMethod_passes req Hm), Hkey, Hbk. cbn [bind try_catch].
    rewrite calls_Call, answered_Call.
    destruct (fst (respond _ s (Head key))) as [[o|]|n m];
      split; reflexivity.
  - enter_nested Hadm Haddr Hr.
    simpl in Hr.
    destruct (nested_object_key req Hr
                (or_intror (or_introl eq_refl)) Hkey)
      as (segment & -> & Hdec).
    unfold HonoApp.objects_stats, HonoApp.getPathString, HonoApp.req_param,
      on_bucket; cbn [HonoApp.ctx_env HonoApp.ctx_params].
    rewrite Hb.
    cbn [assoc String.eqb Ascii.eqb Bool.eqb option_map bind try_catch].
    rewrite <- Hdec.
    rewrite calls_Call, answered_Call.
    destruct (fst (respond _ s (Head key))) as [[o|]|n m];
      split; reflexivity.
Qed.

Lemma object_stats_witness :
  let req := Samples.request "GET" "/stats" [("key", "a.txt")]
               Samples.credential None None in
  calls MemStore.respond (serve Flat req Samples.env) Samples.with_a_txt
  = [CallOf (Head "a.txt")]
  /\ answered MemStore.respond (serve Flat req Samples.env)
       Samples.with_a_txt
     = Some (Response_json
               (JObj [("size", JNum (number_of_N 5));
                      ("etag", JStr "etag:hello")]) 200).
Proof.
  exact (@object_stats Flat
           (Samples.request "GET" "/stats" [("key", "a.txt")]
              Samples.credential None None)
           Samples.env _ MemStore.respond Samples.with_a_txt "a.txt"
           eq_refl eq_refl eq_refl eq_refl).
Defined.

(* ================================================================= *)
(** ** Listing *)

(** X14: a list request on the Hono application makes one call: a listing with
    the [prefix] query parameter as it came (none when absent) and the
    limit 1000.  The answer is 200 with one [{key, size, etag}] entry per
    object the store listed, in the store's order. *)
Theorem list_objects
        (req : Request) (env : Env)
        (S : Type) (respond : forall R : Type, S -> store_op R -> reply R * S)
        (s : S) :
  admitted Nested req env = true ->
  addresses Nested ListOp req = true ->
  let op := ListObjects (searchParams_get req "prefix") 1000 in
  calls respond (serve Nested req env) s = [CallOf op]
  /\ answered respond (serve Nested req env) s
     = Some (match fst (respond _ s op) with
             | Returns listed =>
                 Response_json (JArr (map object_summary listed)) 200
             | Rejects _ _ => internal_error Nested
             end).
Proof.
  intros Hadm Haddr op; subst op.
  enter_nested Hadm Haddr Hr.
  unfold HonoApp.objects_list, HonoApp.req_query, on_bucket;
    cbn [HonoApp.ctx_env HonoApp.ctx_req].
  rewrite Hb. cbn [bind try_catch].
  rewrite calls_Call, answered_Call.
  destruct (fst (respond _ s _)) as [listed|n m]; split; reflexivity.
Qed.

Lemma list_objects_witness :
  let req := Samples.request "GET" "/objects" [("prefix", "a")] []
               None None in
  calls MemStore.respond (serve Nested req Samples.env) Samples.with_a_txt
  = [CallOf (ListObjects (Some "a") 1000)]
  /\ answered MemStore.respond (serve Nested req Samples.env)
       Samples.with_a_txt
     = Some (Response_json
               (JArr [JObj [("key", JStr "a.txt");
                            ("size", JNum (number_of_N 5));
                            ("etag", JStr "etag:hello")]]) 200).
Proof.
  exact (@list_objects
           (Samples.request "GET" "/objects" [("prefix", "a")] [] None None)
           Samples.env _ MemStore.respond Samples.with_a_txt
           eq_refl eq_refl).
Defined.

(* ================================================================= *)
(** ** The middleware of the Hono application *)

(** X15: without the bucket binding every request to the Hono application,
    routed or not, is answered 500 [{"error": "Missing BUCKET binding"}];
    with it but without the secret, 500
    [{"error": "Missing AUTH_KEY secret"}]; a [HEAD] request gets the same
    status and headers without the body.  No handler runs, nothing is
    logged. *)
Theorem nested_missing_binding
        (req : Request) (env : Env)
        (S : Type) (respond : forall R : Type, S -> store_op R -> reply R * S)
        (s : S) :
  admitted Nested req env = false ->
  outcome respond (serve Nested req env) s
  = Returned (quiet (on_the_wire Nested req
                       (Response_json
                          (error_object
                             (if bucket_bound env
                              then "Missing AUTH_KEY secret"
                              else "Missing BUCKET binding")) 500)))
  /\ calls respond (serve Nested req env) s = [].
Proof.
  intros Hadm.
  assert (Hd : forall method,
             HonoApp.dispatch req env method
             = Ret (quiet (Response_json
                             (error_object
                                (if bucket_bound env
                                 then "Missing AUTH_KEY secret"
                                 else "Missing BUCKET binding")) 500))).
  { intros method.
    unfold admitted, bucket_bound, secret_bound in *.
    unfold HonoApp.dispatch, HonoApp.middleware; cbn [HonoApp.ctx_env].
    destruct (BUCKET env); [|reflexivity].
    destruct (AUTH_KEY env); [discriminate Hadm|reflexivity]. }
  unfold serve, HonoApp.fetch, on_the_wire. rewrite !Hd.
  destruct (String.eqb (req_method req) "HEAD"); split; reflexivity.
Qed.

Lemma nested_missing_binding_witness :
  let req := Samples.request "HEAD" "/objects/a.txt" [] [] None None in
  let env := {| BUCKET := Some R2BucketBinding; AUTH_KEY := None |} in
  outcome MemStore.respond (serve Nested req env) Samples.with_a_txt
  = Returned (quiet {| status := 500;
                       resp_headers := [("content-type", "application/json")];
                       resp_body := BodyNull |})
  /\ calls MemStore.respond (serve Nested req env) Samples.with_a_txt = [].
Proof.
  apply (@nested_missing_binding
           (Samples.request "HEAD" "/objects/a.txt" [] [] None None)
           {| BUCKET := Some R2BucketBinding; AUTH_KEY := None |}).
  reflexivity.
Defined.

(* ================================================================= *)
(** ** What the uploads answer on success *)

(** X16: when the store creates the session, start-upload answers 200 with the
    key and the upload id of the session the store returned. *)
Theorem start_upload_success
        (g : gateway) (req : Request) (env : Env)
        (S : Type) (respond : forall R : Type, S -> store_op R -> reply R * S)
        (s : S) (key : string) (mpu : R2MultipartUpload) :
  admitted g req env = true ->
  addresses g StartUpload req = true ->
  bucket_bound env = true ->
  searchParams_get req "key" = Some key ->
  fst (respond _ s (CreateMultipartUpload key)) = Returns mpu ->
  answered respond (serve g req env) s
  = Some (Response_json
            (JObj [("key", JStr (mpu_key mpu));
                   ("uploadId", JStr (mpu_uploadId mpu))]) 200).
Proof.
  intros Hadm Haddr Hbucket Hkey Hans.
  unfold bucket_bound in Hbucket.
  destruct (BUCKET env) as [bk|] eqn:Hbk; [|discriminate].
  destruct g.
  - enter_flat Hadm Haddr Hm.
    unfold Worker.start_upload, Worker.getUrlParam, on_bucket.
    rewrite (checkMethod_passes req Hm), Hkey, Hbk. cbn [bind try_catch].
    rewrite answered_Call, Hans; reflexivity.
  - enter_nested Hadm Haddr Hr.
    unfold HonoApp.uploads_create, HonoApp.getQueryString,
      HonoApp.req_query, on_bucket; cbn [HonoApp.ctx_env HonoApp.ctx_req].
    rewrite Hkey, Hb. cbn [bind try_catch].
    rewrite answered_Call, Hans; reflexivity.
Qed.

Lemma start_upload_success_witness :
  let req := Samples.request "POST" "/start-upload" [("key", "a.txt")]
               Samples.credential None None in
  answered MemStore.respond (serve Flat req Samples.env) MemStore.empty
  = Some (Response_json
            (JObj [("key", JStr "a.txt");
                   ("uploadId", JStr "upload-1")]) 200).
Proof.
  exact (@start_upload_success Flat
           (Samples.request "POST" "/start-upload" [("key", "a.txt")]
              Samples.credential None None)
           Samples.env _ MemStore.respond MemStore.empty "a.txt"
           {| mpu_key := "a.txt"; mpu_uploadId := "upload-1" |}
           eq_refl eq_refl eq_refl eq_refl eq_refl).
Defined.

(** X17: when the store takes the part, upload-part answers 200 with the part
    number and the etag the store returned for it (not the number of the
    request). *)
Theorem upload_part_success
        (g : gateway) (req : Request) (env : Env)
        (S : Type) (respond : forall R : Type, S -> store_op R -> reply R * S)
        (s : S) (key uploadId value body : string)
        (mpu : R2MultipartUpload) (part : R2UploadedPart) :
  admitted g req env = true ->
  addresses g UploadPartOp req = true ->
  bucket_bound env = true ->
  req_body req = Some body ->
  searchParams_get req "key" = Some key ->
  searchParams_get req "uploadId" = Some uploadId ->
  searchParams_get req "partNumber" = Some value ->
  isNaN (parseInt value) = false ->
  fst (respond _ s (ResumeMultipartUpload key uploadId)) = Returns mpu ->
  fst (respond _ (snd (respond _ s (ResumeMultipartUpload key uploadId)))
         (UploadPart mpu (parseInt value) body)) = Returns part ->
  answered respond (serve g req env) s
  = Some (Response_json
            (JObj [("partNumber", JNum (part_partNumber part));
                   ("etag", JStr (part_etag part))]) 200).
Proof.
  intros Hadm Haddr Hbucket Hbody Hkey Hid Hpn Hnum Hmpu Hpart.
  unfold bucket_bound in Hbucket.
  destruct (BUCKET env) as [bk|] eqn:Hbk; [|discriminate].
  destruct g.
  - enter_flat Hadm Haddr Hm.
    unfold Worker.upload_part, Worker.getUrlParamNumber, Worker.getUrlParam,
      on_bucket, on_mpu.
    rewrite (checkMethod_passes req Hm), Hbody, Hkey, Hid, Hpn, Hbk.
    cbn [bind]. rewrite Hnum. cbn [bind try_catch].
    rewrite answered_Call, Hmpu. cbn [await bind try_catch].
    rewrite answered_Call, Hpart; reflexivity.
  - enter_nested Hadm Haddr Hr.
    unfold HonoApp.uploads_upload_part, HonoApp.getQueryNumber,
      HonoApp.getQueryString, HonoApp.req_query, on_bucket, on_mpu;
      cbn [HonoApp.ctx_env HonoApp.ctx_req].
    rewrite Hbody, Hkey, Hid, Hpn, Hb.
    cbn [bind]. rewrite Hnum. cbn [bind try_catch].
    rewrite answered_Call, Hmpu. cbn [await bind try_catch].
    rewrite answered_Call, Hpart; reflexivity.
Qed.

Lemma upload_part_success_witness :
  let req := Samples.request "POST" "/uploads/upload-part"
               [("key", "a.txt"); ("uploadId", "u1"); ("partNumber", "3")]
               [] (Some "hello") None in
  answered MemStore.respond (serve Nested req Samples.env) MemStore.empty
  = Some (Response_json
            (JObj [("partNumber", JNum (number_of_N 3));
                   ("etag", JStr "etag:hello")]) 200).
Proof.
  exact (@upload_part_success Nested
           (Samples.request "POST" "/uploads/upload-part"
              [("key", "a.txt"); ("uploadId", "u1"); ("partNumber", "3")]
              [] (Some "hello") None)
           Samples.env _ MemStore.respond MemStore.empty
           "a.txt" "u1" "3" "hello"
           {| mpu_key := "a.txt"; mpu_uploadId := "u1" |}
           {| part_partNumber := number_of_N 3; part_etag := "etag:hello" |}
           eq_refl eq_refl eq_refl eq_refl eq_refl eq_refl eq_refl eq_refl
           eq_refl eq_refl).
Defined.

(** X18: when the store completes the session, complete-upload answers 200 with
    the key of the request. *)
Theorem complete_upload_success
        (g : gateway) (req : Request) (env : Env)
        (S : Type) (respond : forall R : Type, S -> store_op R -> reply R * S)
        (s : S) (key uploadId : string) (items : list json)
        (mpu : R2MultipartUpload) (o : R2Object) :
  admitted g req env = true ->
  addresses g CompleteUpload req = true ->
  bucket_bound env = true ->
  searchParams_get req "key" = Some key ->
  searchParams_get req "uploadId" = Some uploadId ->
  req_json req = Some (JArr items) ->
  every part_is_valid items = Ret true ->
  items <> [] ->
  fst (respond _ s (ResumeMultipartUpload key uploadId)) = Returns mpu ->
  fst (respond _ (snd (respond _ s (ResumeMultipartUpload key uploadId)))
         (Complete mpu items)) = Returns o ->
  answered respond (serve g req env) s
  = Some (Response_json (JObj [("key", JStr key)]) 200).
Proof.
  intros Hadm Haddr Hbucket Hkey Hid Hjson Hvalid Hne Hmpu Hdone.
  unfold bucket_bound in Hbucket.
  destruct (BUCKET env) as [bk|] eqn:Hbk; [|discriminate].
  assert (Hlen : Nat.eqb (length items) 0 = false)
    by (destruct items; [contradiction Hne; reflexivity | reflexivity]).
  destruct g.
  - enter_flat Hadm Haddr Hm.
    unfold Worker.complete_upload, Worker.getUrlParam, request_json,
      on_bucket, on_mpu.
    rewrite (checkMethod_passes req Hm), Hkey, Hid, Hjson, Hbk.
    cbn [bind]. rewrite Hvalid. cbn [bind negb]. rewrite Hlen.
    cbn [bind try_catch].
    rewrite answered_Call, Hmpu. cbn [await bind try_catch].
    rewrite answered_Call, Hdone; reflexivity.
  - enter_nested Hadm Haddr Hr.
    unfold HonoApp.uploads_complete, HonoApp.getQueryString,
      HonoApp.req_query, request_json, on_bucket, on_mpu;
      cbn [HonoApp.ctx_req HonoApp.ctx_env].
    rewrite Hkey, Hid, Hjson, Hb.
    cbn [bind]. rewrite Hvalid. cbn [bind negb]. rewrite Hlen.
    cbn [bind try_catch].
    rewrite answered_Call, Hmpu. cbn [await bind try_catch].
    rewrite answered_Call, Hdone; reflexivity.
Qed.

Lemma complete_upload_success_witness :
  let req := Samples.request "POST" "/complete-upload"
               [("key", "a.txt"); ("uploadId", "u1")] Samples.credential
               (Some "...")
               (Some (JArr [Samples.part (number_of_N 1) "etag:hello"])) in
  answered MemStore.respond (serve Flat req Samples.env)
    (Samples.session [(number_of_N 1, "hello")])
  = Some (Response_json (JObj [("key", JStr "a.txt")]) 200).
Proof.
  refine (@complete_upload_success Flat
            (Samples.request "POST" "/complete-upload"
               [("key", "a.txt"); ("uploadId", "u1")] Samples.credential
               (Some "...")
               (Some (JArr [Samples.part (number_of_N 1) "etag:hello"])))
            Samples.env _ MemStore.respond
            (Samples.session [(number_of_N 1, "hello")])
            "a.txt" "u1" [Samples.part (number_of_N 1) "etag:hello"]
            {| mpu_key := "a.txt"; mpu_uploadId := "u1" |}
            (MemStore.object_of "a.txt" "hello")
            eq_refl eq_refl eq_refl eq_refl eq_refl eq_refl eq_refl _
            eq_refl eq_refl).
  discriminate.
Defined.

(* ================================================================= *)
(** ** Parameters *)

(** X19: on every operation that takes the key as a query parameter, a request
    without [key] is answered 400 naming the parameter (in plain text by the
    flat worker, as JSON by the Hono application) and nothing is called;
    upload-part checks for a body first. *)
Theorem missing_key_reported
        (g : gateway) (o : operation) (req : Request) (env : Env)
        (S : Type) (respond : forall R : Type, S -> store_op R -> reply R * S)
        (s : S) :
  admitted g req env = true ->
  addresses g o req = true ->
  takes_key_parameter g o = true ->
  (o = UploadPartOp -> req_body req <> None) ->
  searchParams_get req "key" = None ->
  answered respond (serve g req env) s = Some (missing_parameter g "key")
  /\ calls respond (serve g req env) s = [].
Proof.
  intros Hadm Haddr Htakes Hbody Hkey. destruct g.
  - destruct o; try discriminate Htakes;
      enter_flat Hadm Haddr Hm;
      unfold Worker.start_upload, Worker.upload_part,
        Worker.complete_upload, Worker.download, Worker.stats,
        Worker.getUrlParam;
      rewrite (checkMethod_passes req Hm), ?Hkey;
      try (split; reflexivity).
    destruct (req_body req); [split; reflexivity|].
    exfalso; exact (Hbody eq_refl eq_refl).
  - destruct o; try discriminate Htakes;
      enter_nested Hadm Haddr Hr;
      unfold HonoApp.uploads_create, HonoApp.uploads_upload_part,
        HonoApp.uploads_complete, HonoApp.getQueryString, HonoApp.req_query;
      cbn [HonoApp.ctx_req]; rewrite ?Hkey;
      try (split; reflexivity).
    destruct (req_body req); [split; reflexivity|].
    exfalso; exact (Hbody eq_refl eq_refl).
Qed.

Lemma missing_key_reported_witness :
  let req := Samples.request "GET" "/download" [] Samples.credential
               None None in
  answered MemStore.respond (serve Flat req Samples.env) Samples.with_a_txt
  = Some (Response_text "Invalid or missing key" 400)
  /\ calls MemStore.respond (serve Flat req Samples.env) Samples.with_a_txt
     = [].
Proof.
  apply (@missing_key_reported Flat Download); try reflexivity.
  discriminate.
Defined.

(** X20: upload-part reads its parameters in the order [key], [uploadId],
    [partNumber] and reports the first one that fails: the first missing
    parameter, or otherwise a [partNumber] that does not parse. *)
Theorem upload_part_parameter_order
        (g : gateway) (req : Request) (env : Env)
        (S : Type) (respond : forall R : Type, S -> store_op R -> reply R * S)
        (s : S) (body : string) :
  admitted g req env = true ->
  addresses g UploadPartOp req = true ->
  req_body req = Some body ->
  part_number_unparsable req = true
  \/ searchParams_get req "key" = None
  \/ searchParams_get req "uploadId" = None ->
  answered respond (serve g req env) s
  = Some (match searchParams_get req "key",
                searchParams_get req "uploadId",
                searchParams_get req "partNumber" with
          | None, _, _ => missing_parameter g "key"
          | Some _, None, _ => missing_parameter g "uploadId"
          | Some _, Some _, None => missing_parameter g "partNumber"
          | Some _, Some _, Some _ => invalid_parameter g "partNumber"
          end).
Proof.
  intros Hadm Haddr Hbody Hbad.
  unfold part_number_unparsable in Hbad.
  destruct g.
  - enter_flat Hadm Haddr Hm.
    unfold Worker.upload_part, Worker.getUrlParamNumber, Worker.getUrlParam.
    rewrite (checkMethod_passes req Hm), Hbody.
    destruct (searchParams_get req "key"); [|reflexivity].
    destruct (searchParams_get req "uploadId"); [|reflexivity].
    destruct (searchParams_get req "partNumber") as [value|]; [|reflexivity].
    destruct Hbad as [Hbad|[Hbad|Hbad]]; try discriminate Hbad.
    cbn [bind]. rewrite Hbad. reflexivity.
  - enter_nested Hadm Haddr Hr.
    unfold HonoApp.uploads_upload_part, HonoApp.getQueryNumber,
      HonoApp.getQueryString, HonoApp.req_query; cbn [HonoApp.ctx_req].
    rewrite Hbody.
    destruct (searchParams_get req "key"); [|reflexivity].
    destruct (searchParams_get req "uploadId"); [|reflexivity].
    destruct (searchParams_get req "partNumber") as [value|]; [|reflexivity].
    destruct Hbad as [Hbad|[Hbad|Hbad]]; try discriminate Hbad.
    cbn [bind]. rewrite Hbad. reflexivity.
Qed.

Lemma upload_part_parameter_order_witness :
  let req := Samples.request "POST" "/uploads/upload-part"
               [("key", "a.txt"); ("partNumber", "x")] []
               (Some "hello") None in
  answered MemStore.respond (serve Nested req Samples.env) MemStore.empty
  = Some (Response_json (error_object "Missing uploadId") 400).
Proof.
  apply (@upload_part_parameter_order Nested
           (Samples.request "POST" "/uploads/upload-part"
              [("key", "a.txt"); ("partNumber", "x")] []
              (Some "hello") None)
           Samples.env _ MemStore.respond MemStore.empty "hello");
    try reflexivity.
  left; reflexivity.
Defined.

Lemma parseInt_shape (s : string) :
  match parseInt s with
  | Finite _ _ k => k = 0%N
  | _ => True
  end.
Proof.
  unfold parseInt.
  destruct (match trim_start s with
            | String "-" t => (true, t)
            | String "+" t => (false, t)
            | _ => (false, trim_start s)
            end) as [neg s2].
  destruct (leading_digits s2 None) as [m|]; [|exact I].
  unfold round_to_double.
  destruct (N.ltb m (2 ^ 53)); [reflexivity|].
  cbv zeta. destruct (N.leb (2 ^ 1024) _); [exact I|reflexivity].
Qed.

(** X21: whatever string they are given, the three number getters
    ([getUrlParamNumber], [getQueryNumber], [getPathNumber]) never return
    [NaN] and never a number with a fractional part: they return an integer
    (possibly an infinity, for a very long digit string), or throw. *)
Theorem number_getters_integral
        (req : Request) (c : HonoApp.Context) (name : string) (n : number) :
  Worker.getUrlParamNumber req name = Ret n
  \/ HonoApp.getQueryNumber c name = Ret n
  \/ HonoApp.getPathNumber c name = Ret n ->
  isNaN n = false /\ integral n = true.
Proof.
  assert (Hshape : forall value,
             (if isNaN (parseInt value) then False else parseInt value = n) ->
             isNaN n = false /\ integral n = true).
  { intros value H. pose proof (parseInt_shape value) as Hs.
    destruct (parseInt value) as [|neg|neg m k]; simpl in H; [tauto| |];
      subst n; split; try reflexivity.
    subst k. simpl. rewrite N.mod_1_r. reflexivity. }
  unfold Worker.getUrlParamNumber, Worker.getUrlParam,
    HonoApp.getQueryNumber, HonoApp.getQueryString,
    HonoApp.getPathNumber, HonoApp.getPathString.
  intros [H|[H|H]].
  - destruct (searchParams_get req name) as [value|]; [|discriminate H].
    apply (Hshape value). cbn [bind] in H.
    destruct (isNaN (parseInt value)); [discriminate H|].
    injection H as H; exact H.
  - destruct (HonoApp.req_query c name) as [value|]; [|discriminate H].
    apply (Hshape value). cbn [bind] in H.
    destruct (isNaN (parseInt value)); [discriminate H|].
    injection H as H; exact H.
  - destruct (HonoApp.req_param c name) as [value|]; [|discriminate H].
    apply (Hshape value). cbn [bind] in H.
    destruct (isNaN (parseInt value)); [discriminate H|].
    injection H as H; exact H.
Qed.

Lemma number_getters_integral_witness :
  isNaN (number_of_N 1) = false /\ integral (number_of_N 1) = true.
Proof.
  apply (@number_getters_integral
           (Samples.request "POST" "/upload-part" [("partNumber", "1.5")]
              Samples.credential (Some "hello") None)
           {| HonoApp.ctx_req :=
                Samples.request "POST" "/uploads/upload-part" [] [] None None;
              HonoApp.ctx_env := Samples.env;
              HonoApp.ctx_params := [] |}
           "partNumber").
  left; reflexivity.
Defined.

(* ================================================================= *)
(** ** Complete upload: bodies that make the handler throw *)

(** X22: a complete-upload request whose body [request.json()] cannot parse is
    answered with the generic 500, not with 400; nothing is called. *)
Theorem complete_upload_unparsable_body
        (g : gateway) (req : Request) (env : Env)
        (S : Type) (respond : forall R : Type, S -> store_op R -> reply R * S)
        (s : S) (key uploadId : string) :
  admitted g req env = true ->
  addresses g CompleteUpload req = true ->
  searchParams_get req "key" = Some key ->
  searchParams_get req "uploadId" = Some uploadId ->
  req_json req = None ->
  answered respond (serve g req env) s = Some (internal_error g)
  /\ calls respond (serve g req env) s = [].
Proof.
  intros Hadm Haddr Hkey Hid Hjson. destruct g.
  - enter_flat Hadm Haddr Hm.
    unfold Worker.complete_upload, Worker.getUrlParam, request_json.
    rewrite (checkMethod_passes req Hm), Hkey, Hid, Hjson.
    split; reflexivity.
  - enter_nested Hadm Haddr Hr.
    unfold HonoApp.uploads_complete, HonoApp.getQueryString,
      HonoApp.req_query, request_json; cbn [HonoApp.ctx_req].
    rewrite Hkey, Hid, Hjson.
    split; reflexivity.
Qed.

Lemma complete_upload_unparsable_body_witness :
  let req := Samples.request "POST" "/complete-upload"
               [("key", "a.txt"); ("uploadId", "u1")] Samples.credential
               (Some "not json") None in
  answered MemStore.respond (serve Flat req Samples.env) MemStore.empty
  = Some (internal_error Flat)
  /\ calls MemStore.respond (serve Flat req Samples.env) MemStore.empty = [].
Proof.
  apply (@complete_upload_unparsable_body Flat
           (Samples.request "POST" "/complete-upload"
              [("key", "a.txt"); ("uploadId", "u1")] Samples.credential
              (Some "not json") None)
           Samples.env _ MemStore.respond MemStore.empty "a.txt" "u1");
    reflexivity.
Defined.

Lemma every_valid_throws (pre post : list json) :
  forallb well_typed_part pre = true ->
  every part_is_valid (pre ++ JNull :: post)
  = Throw (Error "TypeError" "Cannot read properties of null").
Proof.
  induction pre as [|x pre IH]; simpl; intros H; [reflexivity|].
  apply andb_true_iff in H; destruct H as [Hx Hpre].
  rewrite (part_is_valid_spec x (well_typed_part_not_null x Hx)), Hx; simpl.
  exact (IH Hpre).
Qed.

(** X23: a parts array in which a [null] comes before any ill-typed element
    makes the validation throw: the request is answered with the generic
    500 instead of 400 "Invalid parts", the [TypeError] goes to the console
    and nothing is called. *)
Theorem complete_upload_null_part_500
        (g : gateway) (req : Request) (env : Env)
        (S : Type) (respond : forall R : Type, S -> store_op R -> reply R * S)
        (s : S) (key uploadId : string) (pre post : list json) :
  admitted g req env = true ->
  addresses g CompleteUpload req = true ->
  searchParams_get req "key" = Some key ->
  searchParams_get req "uploadId" = Some uploadId ->
  req_json req = Some (JArr (pre ++ JNull :: post)) ->
  forallb well_typed_part pre = true ->
  outcome respond (serve g req env) s
  = Returned {| response := internal_error g;
                console := [Error "TypeError"
                                  "Cannot read properties of null"] |}
  /\ calls respond (serve g req env) s = [].
Proof.
  intros Hadm Haddr Hkey Hid Hjson Hpre. destruct g.
  - enter_flat Hadm Haddr Hm.
    unfold Worker.complete_upload, Worker.getUrlParam, request_json.
    rewrite (checkMethod_passes req Hm), Hkey, Hid, Hjson.
    cbn [bind]. rewrite (every_valid_throws pre post Hpre).
    split; reflexivity.
  - enter_nested Hadm Haddr Hr.
    unfold HonoApp.uploads_complete, HonoApp.getQueryString,
      HonoApp.req_query, request_json; cbn [HonoApp.ctx_req].
    rewrite Hkey, Hid, Hjson.
    cbn [bind]. rewrite (every_valid_throws pre post Hpre).
    split; reflexivity.
Qed.

Lemma complete_upload_null_part_500_witness :
  let items := [Samples.part (number_of_N 1) "E1"] ++ JNull :: [JStr "x"] in
  let req := Samples.request "POST" "/uploads/complete"
               [("key", "a.txt"); ("uploadId", "u1")] []
               (Some "...") (Some (JArr items)) in
  outcome MemStore.respond (serve Nested req Samples.env) MemStore.empty
  = Returned {| response := internal_error Nested;
                console := [Error "TypeError"
                                  "Cannot read properties of null"] |}
  /\ calls MemStore.respond (serve Nested req Samples.env) MemStore.empty = [].
Proof.
  apply (@complete_upload_null_part_500 Nested
           (Samples.request "POST" "/uploads/complete"
              [("key", "a.txt"); ("uploadId", "u1")] []
              (Some "...")
              (Some (JArr ([Samples.part (number_of_N 1) "E1"]
                             ++ JNull :: [JStr "x"]))))
           Samples.env _ MemStore.respond MemStore.empty "a.txt" "u1"
           [Samples.part (number_of_N 1) "E1"] [JStr "x"]);
    reflexivity.
Defined.

(* ================================================================= *)
(** ** Instances of the gate and error-shape theorems *)

Lemma flat_rejects_bad_credential_witness :
  let req := Samples.request "POST" "/complete-upload"
               [("key", "a.txt"); ("uploadId", "u1")]
               [("Authorization", "guess")] (Some "...")
               (Some (JArr [Samples.part (number_of_N 1) "etag:hello"])) in
  answered MemStore.respond (serve Flat req Samples.env)
    (Samples.session [(number_of_N 1, "hello")])
  = Some (Response_json (error_object "Unauthorized") 401)
  /\ calls MemStore.respond (serve Flat req Samples.env)
       (Samples.session [(number_of_N 1, "hello")]) = [].
Proof.
  apply flat_rejects_bad_credential; reflexivity.
Defined.

Lemma nested_errors_structured_witness :
  let req := Samples.request "HEAD" "/objects/missing.bin/stats" [] []
               None None in
  exists resp,
    answered MemStore.respond (serve Nested req Samples.env)
      Samples.with_a_txt = Some resp
    /\ resp_body resp = BodyNull
    /\ orb (is_success resp)
         (existsb (N.eqb (status resp)) [400; 404; 500]%N) = true.
Proof.
  apply (@nested_errors_structured
           (Samples.request "HEAD" "/objects/missing.bin/stats" [] []
              None None)
           Samples.env _ MemStore.respond Samples.with_a_txt).
  discriminate.
Defined.

(* ================================================================= *)
(** ** Sanity checks of the model *)

Example parseInt_examples :
  parseInt "12abc" = number_of_N 12
  /\ parseInt "  +7" = number_of_N 7
  /\ parseInt "1.5" = number_of_N 1
  /\ parseInt "-0" = Finite true 0 0
  /\ parseInt "" = NaN
  /\ parseInt "x1" = NaN
  /\ parseInt "9007199254740993" = number_of_N 9007199254740992
  /\ parseInt "0x10" = number_of_N 0
  /\ parseInt (bytes [226; 128; 131; 194; 160; 52; 50]%N) = number_of_N 42.
Proof. repeat split. Qed.

(** Percent decoding on the Hono application: the path is matched after
    [decodeURI], which leaves an escaped slash alone; the parameter is what
    [decodeURIComponent] makes of the matched segment; a malformed escape is
    kept as it is written. *)
Example path_decoding :
  let get path := Samples.request "GET" path [] [] None None in
  let got path :=
    calls MemStore.respond (serve Nested (get path) Samples.env)
      Samples.with_a_txt in
  got "/objects/a%2Etxt" = [CallOf (Get "a.txt")]
  /\ got "/%6Fbjects/a.txt" = [CallOf (Get "a.txt")]
  /\ got "/objects/a%2Fb" = [CallOf (Get "a/b")]
  /\ got "/objects/a%20b/stats" = [CallOf (Head "a b")]
  /\ got "/objects/100%" = [CallOf (Get "100%")]
  /\ got "/objects/%E2%82%AC" = [CallOf (Get (bytes [226; 130; 172]%N))]
  /\ got "/objects/%C0%80" = [CallOf (Get "%C0%80")]
  /\ got "/objects%2Fa.txt" = [].
Proof. repeat split. Qed.

(** A [HEAD] request on the Hono application runs the [GET] route and is
    answered without the body. *)
Example head_request :
  let req := Samples.request "HEAD" "/objects/a.txt" [] [] None None in
  calls MemStore.respond (serve Nested req Samples.env) Samples.with_a_txt
  = [CallOf (Get "a.txt")]
  /\ answered MemStore.respond (serve Nested req Samples.env)
       Samples.with_a_txt
     = Some {| status := 200;
               resp_headers := [("etag", "etag:hello")];
               resp_body := BodyNull |}.
Proof. split; reflexivity. Qed.

(** The upload scenario of the interface description, on the flat worker:
    create a session for [a.txt], upload part 1 with body [hello], complete
    with the etag received, then download and ask for the stats. *)
Example upload_scenario :
  let serve_on s req := run MemStore.respond (serve Flat req Samples.env) s in
  let q := [("key", "a.txt"); ("uploadId", "upload-1")] in
  let '(_, _, s1) :=
    serve_on MemStore.empty
      (Samples.request "POST" "/start-upload" [("key", "a.txt")]
         Samples.credential None None) in
  let '(_, _, s2) :=
    serve_on s1
      (Samples.request "POST" "/upload-part" (q ++ [("partNumber", "1")])
         Samples.credential (Some "hello") None) in
  let '(_, _, s3) :=
    serve_on s2
      (Samples.request "POST" "/complete-upload" q Samples.credential
         (Some "...")
         (Some (JArr [Samples.part (number_of_N 1) "etag:hello"]))) in
  let download := Samples.request "GET" "/download" [("key", "a.txt")]
                    Samples.credential None None in
  let stats := Samples.request "GET" "/stats" [("key", "a.txt")]
                 Samples.credential None None in
  option_map resp_body
    (answered MemStore.respond (serve Flat download Samples.env) s3)
  = Some (BodyStream "hello")
  /\ option_map resp_body
       (answered MemStore.respond (serve Flat stats Samples.env) s3)
     = Some (BodyJson (JObj [("size", JNum (number_of_N 5));
                             ("etag", JStr "etag:hello")])).
Proof. split; reflexivity. Qed.
